(** * Obramais: construction-materials budget (src/Obramais.py)

    A shallow embedding of the Streamlit script: the quantity formula
    [calc_qtd_necessaria], the session ledger filled by [add_item], the
    table built by [df_resumo], the totals of the summary section and the
    four exporters.

    Python floats are IEEE binary64 numbers: they are modelled by Rocq's
    primitive floats, whose operations are specified by [SpecFloat].
    Python's [round(x, n)] and the [.2f] format are correctly rounded
    decimal conversions of the exact binary value; both are written out
    below on the mantissa and exponent of the number.

    Exceptions are results: a call returns a value or raises. The calls
    into pandas, reportlab, xlsxwriter and python-docx are parameters of
    the development; those that take a text or write a file may raise. *)

From Stdlib Require Import ZArith List String Ascii Bool Lia.
From Stdlib Require Import Floats DecimalString Permutation.
From Stdlib Require Uint63.
Import ListNotations.

Set Warnings "-inexact-float".

Local Open Scope Z_scope.

(* ================================================================== *)
(** ** Python runtime: exceptions and results *)

(** The exceptions met in the script, by class: the argument of an
    exception (its message) is the raiser's own and is not modelled.
    [LibraryError] stands for an exception class of a library, by name. *)
Inductive exn : Type :=
| ZeroDivisionError
| KeyError
| TypeError
| ValueError
| LibraryError (name : string).

Inductive result (A : Type) : Type :=
| Ok (a : A)
| Raise (e : exn).

Arguments Ok {A} a.
Arguments Raise {A} e.

Definition rbind {A B : Type} (r : result A) (k : A -> result B) : result B :=
  match r with
  | Ok a => k a
  | Raise e => Raise e
  end.

Declare Scope result_scope.
Delimit Scope result_scope with result.
Notation "'let?' x ':=' r 'in' k" := (rbind r (fun x => k))
  (at level 10, x name, r at level 100, k at level 200) : result_scope.

(** A loop that calls [f] on each element in turn and stops at the first
    exception. *)
Fixpoint rmap {A B : Type} (f : A -> result B) (l : list A) : result (list B) :=
  match l with
  | [] => Ok []
  | a :: l' =>
      (let? b := f a in
       let? bs := rmap f l' in
       Ok (b :: bs))%result
  end.

(* ================================================================== *)
(** ** Python runtime: floats *)

(** [x / y] on floats raises [ZeroDivisionError] when [y] is a zero. *)
Definition py_truediv (x y : float) : result float :=
  if (y =? 0)%float then Raise ZeroDivisionError else Ok (x / y)%float.

(** [x or d] for a float [x]: a float is falsy exactly when it equals zero
    (either sign); NaN is truthy. *)
Definition float_or (x d : float) : float :=
  if (x =? 0)%float then d else x.

(** Nearest integer to [a / b] for [0 <= a], [0 < b], ties to even. *)
Definition round_half_even_div (a b : Z) : Z :=
  let (q, r) := Z.div_eucl a b in
  match Z.compare (2 * r) b with
  | Lt => q
  | Gt => q + 1
  | Eq => if Z.even q then q else q + 1
  end.

(** The integer nearest to [m * 2^e * 10^nd] (ties to even): the digits of
    the decimal expansion of [m * 2^e] correctly rounded to [nd] places. *)
Definition scaled_digits (nd : Z) (m : positive) (e : Z) : Z :=
  match e with
  | Zneg k => round_half_even_div (Zpos m * 10 ^ nd) (2 ^ Zpos k)
  | _ => Zpos m * 2 ^ e * 10 ^ nd
  end.

(** The binary64 number nearest to [(-1)^s * n / d]. *)
Definition nearest_quotient (s : bool) (n d : Z) : spec_float :=
  match n, d with
  | Zpos n, Zpos d =>
      SFdiv prec emax (S754_finite s n 0) (S754_finite false d 0)
  | _, _ => S754_zero s
  end.

(** [round(x, nd)] of CPython, for [0 <= nd]: NaN and the infinities round
    to themselves; a finite [x] is converted to the decimal string with [nd]
    places that is nearest to its exact value (ties to even) and the string
    is converted back to the nearest float. *)
Definition SF_round (x : spec_float) (nd : Z) : spec_float :=
  match x with
  | S754_finite s m e => nearest_quotient s (scaled_digits nd m e) (10 ^ nd)
  | _ => x
  end.

Definition py_round (x : float) (nd : Z) : float :=
  SF2Prim (SF_round (Prim2SF x) nd).

Definition dec (z : Z) : string :=
  NilZero.string_of_uint (N.to_uint (Z.to_N z)).

(** [format(x, ".2f")]: sign, integer part, a point and two digits. *)
Definition SF_format_2f (x : spec_float) : string :=
  match x with
  | S754_nan => "nan"
  | S754_infinity s => if s then "-inf" else "inf"
  | S754_zero s => if s then "-0.00" else "0.00"
  | S754_finite s m e =>
      let n := scaled_digits 2 m e in
      ((if s then "-" else "")
         ++ dec (n / 100) ++ "." ++ dec (n mod 100 / 10) ++ dec (n mod 10))%string
  end.

Definition format_2f (x : float) : string := SF_format_2f (Prim2SF x).

(** A string made of decimal digits only. *)
Definition is_digit (c : ascii) : bool :=
  (48 <=? nat_of_ascii c)%nat && (nat_of_ascii c <=? 57)%nat.

Fixpoint all_digits (s : string) : bool :=
  match s with
  | EmptyString => true
  | String c s' => is_digit c && all_digits s'
  end.

(* ================================================================== *)
(** ** Python runtime: values, dicts, clock *)

Inductive pyval : Type :=
| PStr (s : string)
| PFloat (x : float).

(** A [dict] keeps its keys in insertion order. *)
Definition dict : Type := list (string * pyval).

Fixpoint dict_get (d : dict) (k : string) : option pyval :=
  match d with
  | [] => None
  | (k', v) :: d' => if String.eqb k' k then Some v else dict_get d' k
  end.

(** [d[k] = v]: an existing key keeps its position. *)
Fixpoint dict_set (d : dict) (k : string) (v : pyval) : dict :=
  match d with
  | [] => [(k, v)]
  | (k', v') :: d' =>
      if String.eqb k' k then (k', v) :: d' else (k', v') :: dict_set d' k v
  end.

(** [d.update(e)]. *)
Definition dict_update (d e : dict) : dict :=
  fold_left (fun acc kv => dict_set acc (fst kv) (snd kv)) e d.

Definition dict_keys (d : dict) : list string := map fst d.

Definition mem_string (k : string) (l : list string) : bool :=
  existsb (String.eqb k) l.

(** The keys of a [dict] are pairwise distinct. *)
Fixpoint distinct (l : list string) : bool :=
  match l with
  | [] => true
  | k :: l' => negb (mem_string k l') && distinct l'
  end.

Definition dict_wf (d : dict) : bool := distinct (dict_keys d).

Record datetime : Type := {
  year : Z; month : Z; day : Z; hour : Z; minute : Z; second : Z
}.

Definition pad2 (n : Z) : string :=
  if n <? 10 then ("0" ++ dec n)%string else dec n.

(** [t.strftime('%d/%m/%Y %H:%M')]: two digits for the day, the month, the
    hour and the minute; the year is printed as it is. *)
Definition strftime_dmY_HM (t : datetime) : string :=
  (pad2 (day t) ++ "/" ++ pad2 (month t) ++ "/" ++ dec (year t)
     ++ " " ++ pad2 (hour t) ++ ":" ++ pad2 (minute t))%string.

(** [s or d] for a string: the empty string is falsy. *)
Definition str_or (s d : string) : string :=
  match s with EmptyString => d | _ => s end.

(* ================================================================== *)
(** ** The world of a script run and its monad *)

(** [session_items] is [st.session_state["items"]], [None] while the key
    is absent; [clock] is what [datetime.now()] returns. *)
Record world : Type := {
  clock : datetime;
  session_items : option (list dict)
}.

Definition M (A : Type) : Type := world -> result (A * world).

Definition ret {A : Type} (a : A) : M A := fun w => Ok (a, w).

Definition bind {A B : Type} (m : M A) (k : A -> M B) : M B :=
  fun w => match m w with
           | Ok (a, w') => k a w'
           | Raise e => Raise e
           end.

Definition lift {A : Type} (r : result A) : M A :=
  fun w => match r with Ok a => Ok (a, w) | Raise e => Raise e end.

Declare Scope py_scope.
Delimit Scope py_scope with py.
Notation "x <- m ;; k" := (bind m (fun x => k))
  (at level 100, m at next level, right associativity) : py_scope.
Notation "m ;;; k" := (bind m (fun _ => k))
  (at level 100, right associativity) : py_scope.

Definition datetime_now : M datetime := fun w => Ok (clock w, w).

(** [st.session_state.get("items", [])]. *)
Definition session_state_get_items : M (list dict) :=
  fun w => match session_items w with
           | Some l => Ok (l, w)
           | None => Ok ([], w)
           end.

(** [st.session_state["items"].append(item)]: the subscript raises a
    [KeyError] while the key is absent. *)
Definition session_state_items_append (item : dict) : M unit :=
  fun w => match session_items w with
           | Some l =>
               Ok (tt, {| clock := clock w; session_items := Some (l ++ [item]) |})
           | None => Raise KeyError
           end.

(** Lines 130-131: [if "items" not in st.session_state: ... = []]. *)
Definition init_session : M unit :=
  fun w => match session_items w with
           | Some _ => Ok (tt, w)
           | None => Ok (tt, {| clock := clock w; session_items := Some [] |})
           end.

(* ================================================================== *)
(** ** Quantity calculator and ledger (lines 28-50) *)

Definition calc_qtd_necessaria
  (medida cobertura_por_unidade desperdicio_pct : float) : result float :=
  if (cobertura_por_unidade <=? 0)%float then Ok 0%float
  else
    (let? t := py_truediv (float_or desperdicio_pct 0) 100 in
     let fator := (1 + t)%float in
     let? q := py_truediv medida cobertura_por_unidade in
     Ok (q * fator)%float)%result.

(** The eight fixed columns of a line item, in the order of the literal. *)
Definition fixed_columns : list string :=
  [ "Material"; "Medida"; "Cobertura por Unidade"; "Unidade";
    "Desperdício (%)"; "Qtd Necessária"; "Preço Unitário"; "Subtotal" ]%string.

Definition fixed_fields (material : string) (medida cobertura : float)
  (unidade : string) (desperdicio qtd preco subtotal : float) : dict :=
  [ ("Material", PStr material);
    ("Medida", PFloat medida);
    ("Cobertura por Unidade", PFloat cobertura);
    ("Unidade", PStr unidade);
    ("Desperdício (%)", PFloat desperdicio);
    ("Qtd Necessária", PFloat qtd);
    ("Preço Unitário", PFloat preco);
    ("Subtotal", PFloat subtotal) ]%string.

Definition add_item (material : string) (medida cobertura : float)
  (unidade : string) (desperdicio preco_unit : float)
  (especificacoes : dict) : M unit :=
  (qtd <- lift (calc_qtd_necessaria medida cobertura desperdicio) ;;
   let qtd := py_round qtd 3 in
   let subtotal := py_round (float_or preco_unit 0 * qtd)%float 2 in
   let item :=
     fixed_fields material medida cobertura unidade desperdicio qtd
       (float_or preco_unit 0) subtotal in
   let item := dict_update item especificacoes in
   session_state_items_append item)%py.

(** One press of the "Adicionar Material" button (line 172). *)
Record call : Type := {
  c_material : string;
  c_medida : float;
  c_cobertura : float;
  c_unidade : string;
  c_desperdicio : float;
  c_preco_unit : float;
  c_especificacoes : dict
}.

Definition add_item_call (c : call) : M unit :=
  add_item (c_material c) (c_medida c) (c_cobertura c) (c_unidade c)
    (c_desperdicio c) (c_preco_unit c) (c_especificacoes c).

Fixpoint run_calls (cs : list call) : M unit :=
  match cs with
  | [] => ret tt
  | c :: cs' => (add_item_call c ;;; run_calls cs')%py
  end.

(** The quantity [add_item] stores: the guarded formula, rounded. *)
Definition qtd_of (medida cobertura desperdicio : float) : float :=
  py_round
    (if (cobertura <=? 0)%float then 0
     else medida / cobertura * (1 + desperdicio / 100))%float 3.

(** The line item [add_item] appends for a call. *)
Definition item_of_call (c : call) : dict :=
  let qtd := qtd_of (c_medida c) (c_cobertura c) (c_desperdicio c) in
  let preco := float_or (c_preco_unit c) 0 in
  dict_update
    (fixed_fields (c_material c) (c_medida c) (c_cobertura c) (c_unidade c)
       (c_desperdicio c) qtd preco (py_round (preco * qtd)%float 2))
    (c_especificacoes c).

(** No key of [e] is one of the fixed column names. *)
Definition disjoint_from_fixed (e : dict) : bool :=
  forallb (fun k => negb (mem_string k fixed_columns)) (dict_keys e).

(* ================================================================== *)
(** ** The table (pandas) *)

Record DataFrame : Type := {
  columns : list string;
  rows : list (list pyval)
}.

(** [pd.DataFrame()]. *)
Definition DataFrame_new : DataFrame := {| columns := []; rows := [] |}.

Definition add_columns (cols : list string) (r : dict) : list string :=
  fold_left (fun acc k => if mem_string k acc then acc else acc ++ [k])
    (dict_keys r) cols.

(** Column labels of [pd.DataFrame(data)]: the keys of the records in the
    order in which they are first met. *)
Definition union_columns (data : list dict) : list string :=
  fold_left add_columns data [].

(** A key a record does not have is filled with NaN. *)
Definition cell (r : dict) (c : string) : pyval :=
  match dict_get r c with
  | Some v => v
  | None => PFloat nan
  end.

Definition record_row (cols : list string) (r : dict) : list pyval :=
  map (cell r) cols.

(** [pd.DataFrame(data)] for a list of dicts. *)
Definition DataFrame_of_records (data : list dict) : DataFrame :=
  {| columns := union_columns data;
     rows := map (record_row (union_columns data)) data |}.

(** [df.empty]: an axis of length zero. *)
Definition df_empty (df : DataFrame) : bool :=
  (List.length (columns df) =? 0)%nat || (List.length (rows df) =? 0)%nat.

Fixpoint index_of (c : string) (cols : list string) : option nat :=
  match cols with
  | [] => None
  | c' :: cols' =>
      if String.eqb c' c then Some O
      else match index_of c cols' with
           | Some i => Some (S i)
           | None => None
           end
  end.

(** [df[c]]. *)
Definition df_column (df : DataFrame) (c : string) : result (list pyval) :=
  match index_of c (columns df) with
  | Some i => Ok (map (fun r => nth i r (PFloat nan)) (rows df))
  | None => Raise KeyError
  end.

Fixpoint floats_of (col : list pyval) : option (list float) :=
  match col with
  | [] => Some []
  | PFloat x :: col' =>
      match floats_of col' with
      | Some xs => Some (x :: xs)
      | None => None
      end
  | PStr _ :: _ => None
  end.

Definition nan_to_zero (x : float) : float :=
  if is_nan x then 0%float else x.

(** Lines 52-54. *)
Definition df_resumo : M DataFrame :=
  (data <- session_state_get_items ;;
   ret (match data with
        | [] => DataFrame_new
        | _ :: _ => DataFrame_of_records data
        end))%py.

(** The [Subtotal] of a stored item, when it is a float. *)
Definition subtotal_of (r : dict) : option float :=
  match dict_get r "Subtotal" with
  | Some (PFloat x) => Some x
  | _ => None
  end.

Fixpoint subtotals (data : list dict) : option (list float) :=
  match data with
  | [] => Some []
  | r :: data' =>
      match subtotal_of r, subtotals data' with
      | Some x, Some xs => Some (x :: xs)
      | _, _ => None
      end
  end.

(** [custos_extra]: the labor and tax figures keyed by name. *)
Definition custos : Type := list (string * float).

(** [float(custos_extra.get(k, 0))]. *)
Fixpoint custos_get (c : custos) (k : string) : float :=
  match c with
  | [] => 0%float
  | (k', v) :: c' => if String.eqb k' k then v else custos_get c' k
  end.

Definition bytes : Type := list Byte.byte.

(** [s.encode("utf-8")]: a [string] here already holds UTF-8 bytes. *)
Definition encode_utf8 (s : string) : bytes := list_byte_of_string s.

(* ================================================================== *)
(** ** Documents handed to the export libraries *)

Inductive table_cmd : Type :=
| BACKGROUND (c0 r0 c1 r1 : Z) (color : string)
| GRID (c0 r0 c1 r1 : Z) (width : float) (color : string).

(** reportlab flowables. *)
Inductive flowable : Type :=
| Paragraph (text style : string)
| Spacer (width height : Z)
| Table (data : list (list string)) (repeatRows : Z) (style : list table_cmd).

Record doc_template : Type := {
  pagesize : string;
  rightMargin : Z; leftMargin : Z; topMargin : Z; bottomMargin : Z
}.

(** python-docx blocks, in document order. *)
Inductive docx_block : Type :=
| Heading (text : string) (level : Z)
| DocParagraph (text : string)
| DocTable (cells : list (list string)).

(** What the script puts on the page. *)
Inductive widget : Type :=
| Subheader (s : string)
| Dataframe (df : DataFrame)
| Write (s : string)
| Info (s : string)
| DownloadButton (label : string) (data : bytes) (file_name : string).

(* ================================================================== *)
(** ** Sign conditions on calls and stored items *)

(** A call whose numeric inputs are all [>= 0] and whose extra fields form
    a dict with none of the fixed column names. *)
Definition call_ok (c : call) : bool :=
  (0 <=? c_medida c)%float && (0 <=? c_cobertura c)%float
  && (0 <=? c_desperdicio c)%float && (0 <=? c_preco_unit c)%float
  && dict_wf (c_especificacoes c)
  && disjoint_from_fixed (c_especificacoes c).

(** The quantity and the subtotal of a stored item are floats that are
    never negative (each is [>= 0] or NaN), and are [>= 0] when the
    quantity and the unit price are finite. *)
Definition item_never_negative (r : dict) : Prop :=
  exists qtd preco subtotal : float,
    dict_get r "Qtd Necessária" = Some (PFloat qtd)
    /\ dict_get r "Preço Unitário" = Some (PFloat preco)
    /\ dict_get r "Subtotal" = Some (PFloat subtotal)
    /\ (qtd <? 0)%float = false
    /\ (subtotal <? 0)%float = false
    /\ (is_finite qtd = true -> is_finite preco = true ->
        (0 <=? qtd)%float = true /\ (0 <=? subtotal)%float = true).

(** ** Reading texts back *)

(** An amount printed with two decimals: an optional sign, at least one
    digit, a point and exactly two digits. *)
Definition two_decimals (s : string) : Prop :=
  exists (neg : bool) (int_part frac : string),
    s = ((if neg then "-" else "") ++ int_part ++ "." ++ frac)%string
    /\ all_digits int_part = true
    /\ (1 <= String.length int_part)%nat
    /\ all_digits frac = true
    /\ String.length frac = 2%nat.

Fixpoint contains (needle hay : string) : bool :=
  String.prefix needle hay
  || match hay with
     | EmptyString => false
     | String _ hay' => contains needle hay'
     end.

(** Whether the bytes an exporter returned contain a text. *)
Definition output_contains (needle : string) (r : result (bytes * world)) : bool :=
  match r with
  | Ok (b, _) => contains needle (string_of_list_byte b)
  | Raise _ => false
  end.

(** ** Sample inputs *)

Definition sample_time : datetime :=
  {| year := 2024; month := 3; day := 7; hour := 9; minute := 5; second := 0 |}.

(** One minute after [sample_time]. *)
Definition later_time : datetime :=
  {| year := 2024; month := 3; day := 7; hour := 9; minute := 6; second := 0 |}.

Definition fresh_world : world :=
  {| clock := sample_time; session_items := None |}.

(** The scenario of the cement bags. *)
Definition cimento_call : call :=
  {| c_material := "Cimento"; c_medida := 50; c_cobertura := 25;
     c_unidade := "saco"; c_desperdicio := 10; c_preco_unit := 30;
     c_especificacoes := [] |}.

(** The line item of the cement scenario, the table and the world holding
    it. *)
Definition cimento_item : dict :=
  fixed_fields "Cimento" 50 25 "saco" 10 2.2 30 66.

Definition cimento_df : DataFrame := DataFrame_of_records [cimento_item].

Definition cimento_world : world :=
  {| clock := sample_time; session_items := Some [cimento_item] |}.

Definition sample_custos : custos :=
  [("mao_obra", 10%float); ("impostos", 5%float)]%string.

(** A large area over a small coverage, with the default waste of 5 % and
    the default price of 0: the quotient overflows to infinity. *)
Definition overflow_call : call :=
  {| c_material := "Areia"; c_medida := 1e308; c_cobertura := 0.1;
     c_unidade := "m3"; c_desperdicio := 5; c_preco_unit := 0;
     c_especificacoes := [] |}.

(* ================================================================== *)
(** ** The form and one run of the script (lines 127-196) *)

(** Values of the material-specific inputs (lines 150-169); only the ones
    of the selected material are read. *)
Record extras_input : Type := {
  x_medidas_madeira : string;
  x_tipo_cola : string;
  x_diametro : string;
  x_uso : string;
  x_altura : float;
  x_largura : float;
  x_medida_bloco : string;
  x_medida_tijolo : string;
  x_tipo_areia : string;
  x_tipo_brita : string
}.

(** Lines 151-169: [especificacoes = {}], then one or two assignments
    chosen by the material. *)
Definition especificacoes_of (material : string) (x : extras_input) : dict :=
  if String.eqb material "Madeira" then
    dict_set [] "Medidas (m)" (PStr (x_medidas_madeira x))
  else if String.eqb material "Cola" then
    dict_set [] "Tipo" (PStr (x_tipo_cola x))
  else if String.eqb material "Canos" then
    dict_set (dict_set [] "Diâmetro" (PStr (x_diametro x)))
      "Uso" (PStr (x_uso x))
  else if String.eqb material "Janelas" then
    dict_set (dict_set [] "Altura (m)" (PFloat (x_altura x)))
      "Largura (m)" (PFloat (x_largura x))
  else if String.eqb material "Blocos" then
    dict_set [] "Medida do bloco (cm)" (PStr (x_medida_bloco x))
  else if String.eqb material "Tijolos" then
    dict_set [] "Medida do tijolo (cm)" (PStr (x_medida_tijolo x))
  else if String.eqb material "Areia" then
    dict_set [] "Tipo de areia" (PStr (x_tipo_areia x))
  else if String.eqb material "Brita" then
    dict_set [] "Tipo de brita" (PStr (x_tipo_brita x))
  else [].

(** The widget values of one run; [f_adicionar] is the state of the
    "Adicionar Material" button. *)
Record form : Type := {
  f_projeto : string;
  f_cliente : string;
  f_responsavel : string;
  f_material : string;
  f_medida : float;
  f_cobertura : float;
  f_unidade : string;
  f_desperdicio : float;
  f_preco_unit : float;
  f_extras : extras_input;
  f_adicionar : bool;
  f_mao_obra : float;
  f_impostos : float
}.

Definition call_of_form (f : form) : call :=
  {| c_material := f_material f; c_medida := f_medida f;
     c_cobertura := f_cobertura f; c_unidade := f_unidade f;
     c_desperdicio := f_desperdicio f; c_preco_unit := f_preco_unit f;
     c_especificacoes := especificacoes_of (f_material f) (f_extras f) |}.

(** The extra fields of a call form a dict with none of the fixed names. *)
Definition call_valid (c : call) : bool :=
  dict_wf (c_especificacoes c) && disjoint_from_fixed (c_especificacoes c).

(** Every item of the ledger, if there is one, has a float [Subtotal]. *)
Definition ledger_numeric (w : world) : bool :=
  match session_items w with
  | None => true
  | Some l => match subtotals l with Some _ => true | None => false end
  end.

(** The ledger as a list: no items while the session is not initialised. *)
Definition ledger_of (w : world) : list dict :=
  match session_items w with
  | None => []
  | Some l => l
  end.

(** The ledger a run of the script leaves. *)
Definition ledger_after (f : form) (w : world) : list dict :=
  ledger_of w ++ (if f_adicionar f then [item_of_call (call_of_form f)] else []).

(** A computation that, when it returns, leaves the world as it found it. *)
Definition preserves_world {A : Type} (m : M A) : Prop :=
  forall w : world,
    match m w with
    | Ok (_, w') => w' = w
    | Raise _ => True
    end.

Definition sample_extras : extras_input :=
  {| x_medidas_madeira := "2.5 x 0.1 x 0.03"; x_tipo_cola := "PVC";
     x_diametro := "50"; x_uso := "Esgoto"; x_altura := 1.2; x_largura := 0.8;
     x_medida_bloco := "14x19x39"; x_medida_tijolo := "9x19x29";
     x_tipo_areia := "Fina"; x_tipo_brita := "Nº 1" |}.

(** A window of 1.2 m by 0.8 m added with the button pressed. *)
Definition janelas_form : form :=
  {| f_projeto := "Casa Verde"; f_cliente := "Ana Lima";
     f_responsavel := "Rui Costa"; f_material := "Janelas";
     f_medida := 3; f_cobertura := 1; f_unidade := "un";
     f_desperdicio := 5; f_preco_unit := 250; f_extras := sample_extras;
     f_adicionar := true; f_mao_obra := 10; f_impostos := 5 |}.

(** The item stored for [janelas_form], and a ledger of two items: the
    cement bags, then the windows. *)
Definition janelas_item : dict := item_of_call (call_of_form janelas_form).

Definition obra_world : world :=
  {| clock := sample_time; session_items := Some [cimento_item; janelas_item] |}.

(* ================================================================== *)
(** ** Floating-point sums *)

(** The additions of a float reduction: a tree whose nodes are binary
    additions. *)
Inductive sum_tree : Type :=
| Leaf (x : float)
| Node (l r : sum_tree).

Fixpoint tree_value (t : sum_tree) : float :=
  match t with
  | Leaf x => x
  | Node l r => (tree_value l + tree_value r)%float
  end.

Fixpoint tree_leaves (t : sum_tree) : list float :=
  match t with
  | Leaf x => [x]
  | Node l r => tree_leaves l ++ tree_leaves r
  end.

Definition nonzero (x : float) : bool := negb (x =? 0)%float.

(** [s] is a floating-point sum of [xs]: the value of binary additions
    that take every element of [xs] once, in some order and some grouping,
    possibly with zeros added (the initial value of a reduction). *)
Definition float_sum_of (xs : list float) (s : float) : Prop :=
  exists t : sum_tree,
    tree_value t = s
    /\ Permutation (filter nonzero (tree_leaves t)) (filter nonzero xs).

(* ================================================================== *)
(** ** Stand-ins for the libraries *)

(** Plain stand-ins for the libraries, to run the model on examples: a
    left-to-right sum, text renderings in place of the binary formats, and
    two checks of the texts handed to the document libraries. *)
Definition seq_sum (xs : list float) : float :=
  fold_left (fun acc x => (acc + x)%float) xs 0%float.

(** A column holding text: [float] of a text that is not a number. *)
Definition text_sum (col : list pyval) : result float := Raise ValueError.

Definition join (sep : string) (l : list string) : string :=
  fold_right (fun s acc => (s ++ sep ++ acc)%string) EmptyString l.

Definition text_repr (x : float) : string := format_2f x.

Definition text_table (repr : float -> string) (sep : string)
  (df : DataFrame) : string :=
  let str v := match v with PStr s => s | PFloat x => repr x end in
  join (String "010" EmptyString)
    (join sep (columns df) :: map (fun r => join sep (map str r)) (rows df)).

Definition text_of_flowable (f : flowable) : string :=
  match f with
  | Paragraph text _ => text
  | Spacer _ _ => EmptyString
  | Table data _ _ => join (String "010" EmptyString) (map (join "|") data)
  end.

Definition text_of_block (b : docx_block) : string :=
  match b with
  | Heading text _ => text
  | DocParagraph text => text
  | DocTable cells => join (String "010" EmptyString) (map (join "|") cells)
  end.

Definition text_xlsx (sheet : string) (df : DataFrame) : result bytes :=
  Ok (encode_utf8 (sheet ++ String "010" (text_table text_repr "," df))%string).

(** Paragraph markup: a [<] opens a tag, which a [>] must close before the
    text ends or another [<] comes; ["A<B"] is rejected, ["<b>A</b>"] is
    accepted. *)
Fixpoint tags_closed (inside : bool) (s : string) : bool :=
  match s with
  | EmptyString => negb inside
  | String c s' =>
      if Ascii.eqb c "<" then negb inside && tags_closed true s'
      else if Ascii.eqb c ">" then tags_closed false s'
      else tags_closed inside s'
  end.

Definition text_markup_ok (s : string) : bool := tags_closed false s.

Definition text_pdf (_ : doc_template) (story : list flowable) : result bytes :=
  Ok (encode_utf8 (join (String "010" EmptyString) (map text_of_flowable story))).

Definition text_csv (sep : string) (df : DataFrame) : result string :=
  Ok (text_table text_repr sep df).

(** XML text: no control character other than tab, line feed and carriage
    return. *)
Definition xml_char (c : ascii) : bool :=
  let n := nat_of_ascii c in
  ((32 <=? n) || (n =? 9) || (n =? 10) || (n =? 13))%nat.

Fixpoint text_xml_ok (s : string) : bool :=
  match s with
  | EmptyString => true
  | String c s' => xml_char c && text_xml_ok s'
  end.

Definition text_docx (doc : list docx_block) : result bytes :=
  Ok (encode_utf8 (join (String "010" EmptyString) (map text_of_block doc))).

(* ================================================================== *)
(** ** Totals, exporters and the summary section (lines 56-124, 175-196)

    The libraries are parameters. [float_repr] is [str] on a float.
    [ndarray_sum] is the reduction behind [Series.sum] on a float column
    and [object_sum] is [float(Series.sum())] on a column that holds text
    (pandas concatenates or raises, [float] parses or raises).
    [xlsx_write] is the xlsxwriter engine behind
    [df.to_excel(..., index=False)], [to_csv] pandas'
    [df.to_csv(index=False, sep=...)]. [markup_ok] tells whether
    reportlab's paragraph parser accepts a text and [pdf_build] is
    [SimpleDocTemplate.build]. [xml_ok] tells whether python-docx accepts
    a text and [docx_save] is [Document.save]. A writer returns the bytes
    it produced or raises. *)

Section App.

Local Set Default Proof Using "Type".

Variable float_repr : float -> string.
Variable ndarray_sum : list float -> float.
Variable object_sum : list pyval -> result float.
Variable xlsx_write : string -> DataFrame -> result bytes.
Variable markup_ok : string -> bool.
Variable pdf_build : doc_template -> list flowable -> result bytes.
Variable to_csv : string -> DataFrame -> result string.
Variable xml_ok : string -> bool.
Variable docx_save : list docx_block -> result bytes.

(** [str(v)]. *)
Definition py_str (v : pyval) : string :=
  match v with
  | PStr s => s
  | PFloat x => float_repr x
  end.

(** [float(s.sum())]: on a float column NaN entries are skipped (counted
    as 0); a column holding text is left to [object_sum]. *)
Definition Series_sum (col : list pyval) : result float :=
  match floats_of col with
  | Some xs => Ok (ndarray_sum (map nan_to_zero xs))
  | None => object_sum col
  end.

(** [float(df["Subtotal"].sum()) if "Subtotal" in df.columns else 0.0]. *)
Definition total_materiais (df : DataFrame) : result float :=
  if mem_string "Subtotal" (columns df)
  then (let? col := df_column df "Subtotal" in Series_sum col)%result
  else Ok 0%float.

(** Lines 185-186: [(total, total_final)]. *)
Definition totais (df : DataFrame) (mao_obra impostos : float)
  : result (float * float) :=
  (let? total := total_materiais df in
   Ok (total, (total + mao_obra + impostos)%float))%result.

(** Lines 56-60. *)
Definition make_excel_bytes (df : DataFrame) : M bytes :=
  lift (xlsx_write "Orçamento" df).

Definition a4_template : doc_template :=
  {| pagesize := "A4";
     rightMargin := 24; leftMargin := 24; topMargin := 24; bottomMargin := 24 |}.

(** [Paragraph(text, style)]: the text is parsed as markup when the
    paragraph is made, and a text the parser rejects raises [ValueError]. *)
Definition rl_Paragraph (text style : string) : result flowable :=
  if markup_ok text then Ok (Paragraph text style) else Raise ValueError.

(** Lines 74-89: table and totals, only for a non-empty table. The cells
    of the table are kept as plain strings. *)
Definition pdf_body (df : DataFrame) (custos_extra : custos)
  : result (list flowable) :=
  if negb (df_empty df) then
    (let header := columns df in
     let data := header :: map (map py_str) (rows df) in
     let t := Table data 1
                [ BACKGROUND 0 0 (-1) 0 "lightgrey";
                  GRID 0 0 (-1) (-1) 0.25%float "grey" ] in
     let? total := total_materiais df in
     let total_final :=
       (total + custos_get custos_extra "mao_obra"
          + custos_get custos_extra "impostos")%float in
     let? p1 :=
       rl_Paragraph ("<b>Materiais:</b> R$ " ++ format_2f total)%string
         "Normal" in
     let? p2 :=
       rl_Paragraph ("<b>Mão de obra:</b> R$ "
                       ++ format_2f (custos_get custos_extra "mao_obra"))%string
         "Normal" in
     let? p3 :=
       rl_Paragraph ("<b>Impostos:</b> R$ "
                       ++ format_2f (custos_get custos_extra "impostos"))%string
         "Normal" in
     let? p4 :=
       rl_Paragraph ("<b>Total:</b> R$ " ++ format_2f total_final)%string
         "Heading3" in
     Ok [ t; Spacer 1 12; p1; p2; p3; p4 ])%result
  else Ok [].

(** Lines 62-92: title, metadata line and spacer (68-72), the body, then
    [doc.build(story)]. *)
Definition make_pdf_bytes (df : DataFrame)
  (projeto cliente responsavel : string) (custos_extra : custos) : M bytes :=
  (titulo <- lift (rl_Paragraph
                     ("Orçamento de Materiais — " ++ projeto)%string "Title") ;;
   agora <- datetime_now ;;
   meta <- lift (rl_Paragraph
                   ("Cliente: " ++ str_or cliente "-"
                      ++ " | Responsável: " ++ str_or responsavel "-"
                      ++ " | Data: " ++ strftime_dmY_HM agora)%string
                   "Normal") ;;
   body <- lift (pdf_body df custos_extra) ;;
   lift (pdf_build a4_template ([ titulo; meta; Spacer 1 12 ] ++ body)))%py.

(** Lines 94-95. *)
Definition make_csv_bytes (df : DataFrame) : M bytes :=
  lift (let? s := to_csv ";" df in Ok (encode_utf8 s))%result.

(** A text handed to python-docx ([add_heading], [add_paragraph],
    [cell.text = ...]): a non-empty text that is not XML-compatible raises
    [ValueError]. *)
Definition docx_text (s : string) : result string :=
  match s with
  | EmptyString => Ok s
  | String _ _ => if xml_ok s then Ok s else Raise ValueError
  end.

Definition add_heading (text : string) (level : Z) : result docx_block :=
  (let? s := docx_text text in Ok (Heading s level))%result.

Definition add_paragraph (text : string) : result docx_block :=
  (let? s := docx_text text in Ok (DocParagraph s))%result.

(** Lines 105-120: table and totals, only for a non-empty table. Every
    cell, of the header row and of the item rows, is set through its
    [text]. *)
Definition docx_body (df : DataFrame) (custos_extra : custos)
  : result (list docx_block) :=
  if negb (df_empty df) then
    (let? hdr := rmap docx_text (columns df) in
     let? cells :=
       rmap (fun row => rmap (fun val => docx_text (py_str val)) row)
         (rows df) in
     let? total := total_materiais df in
     let total_final :=
       (total + custos_get custos_extra "mao_obra"
          + custos_get custos_extra "impostos")%float in
     let? p1 := add_paragraph ("Materiais: R$ " ++ format_2f total)%string in
     let? p2 :=
       add_paragraph ("Mão de obra: R$ "
                        ++ format_2f (custos_get custos_extra "mao_obra"))%string in
     let? p3 :=
       add_paragraph ("Impostos: R$ "
                        ++ format_2f (custos_get custos_extra "impostos"))%string in
     let? h :=
       add_heading ("Total: R$ " ++ format_2f total_final)%string 1 in
     Ok [ DocTable (hdr :: cells); p1; p2; p3; h ])%result
  else Ok [].

(** Lines 97-124: heading and metadata paragraphs (99-103), the body, then
    [doc.save(buffer)]. *)
Definition make_docx_bytes (df : DataFrame)
  (projeto cliente responsavel : string) (custos_extra : custos) : M bytes :=
  (h <- lift (add_heading ("Orçamento de Materiais — " ++ projeto)%string 0) ;;
   p1 <- lift (add_paragraph ("Cliente: " ++ str_or cliente "-")%string) ;;
   p2 <- lift (add_paragraph ("Responsável: " ++ str_or responsavel "-")%string) ;;
   agora <- datetime_now ;;
   p3 <- lift (add_paragraph ("Data: " ++ strftime_dmY_HM agora)%string) ;;
   p4 <- lift (add_paragraph "") ;;
   body <- lift (docx_body df custos_extra) ;;
   lift (docx_save ([ h; p1; p2; p3; p4 ] ++ body)))%py.

(** Lines 176-186: the table and, under [if not df.empty], the two totals.
    [mao_obra] and [impostos] are the two number inputs shown under
    "Custos Extras". For an empty table nothing is computed. *)
Definition resumo_totais (mao_obra impostos : float)
  : M (option (DataFrame * float * float)) :=
  (df <- df_resumo ;;
   if negb (df_empty df) then
     tt <- lift (totais df mao_obra impostos) ;;
     ret (Some (df, fst tt, snd tt))
   else ret None)%py.

(** Lines 175-196: the summary section of the page, returned when the
    section has been drawn to its end. *)
Definition resumo_section (projeto cliente responsavel : string)
  (mao_obra impostos : float) : M (list widget) :=
  (r <- resumo_totais mao_obra impostos ;;
   match r with
   | Some (df, total, total_final) =>
       let custos_extra := [("mao_obra", mao_obra); ("impostos", impostos)]%string in
       xlsx <- make_excel_bytes df ;;
       pdf <- make_pdf_bytes df projeto cliente responsavel custos_extra ;;
       csv <- make_csv_bytes df ;;
       docx <- make_docx_bytes df projeto cliente responsavel custos_extra ;;
       ret [ Subheader "Resumo dos Itens";
             Dataframe df;
             Subheader "Custos Extras";
             Write ("**Total Materiais:** R$ " ++ format_2f total)%string;
             Write ("**Total Final (com mão de obra e impostos):** R$ "
                      ++ format_2f total_final)%string;
             Subheader "Exportar Orçamento";
             DownloadButton "📊 Baixar Excel" xlsx "orcamento.xlsx";
             DownloadButton "📄 Baixar PDF" pdf "orcamento.pdf";
             DownloadButton "📝 Baixar CSV" csv "orcamento.csv";
             DownloadButton "📑 Baixar DOCX" docx "orcamento.docx" ]
   | None =>
       ret [ Subheader "Resumo dos Itens";
             Info "Nenhum item adicionado ainda." ]
   end)%py.

(** Lines 130-173: the session is initialised and a pressed button adds
    the item and shows the success message. *)
Definition script_ledger (f : form) : M (option string) :=
  (init_session ;;;
   if f_adicionar f then
     (add_item (f_material f) (f_medida f) (f_cobertura f)
        (f_unidade f) (f_desperdicio f) (f_preco_unit f)
        (especificacoes_of (f_material f) (f_extras f)) ;;;
      ret (Some (f_material f ++ " adicionado ao orçamento!")%string))
   else ret None)%py.

(** Lines 127-196, one run of the script: the ledger part, then the
    summary section. *)
Definition script_run (f : form) : M (option string * list widget) :=
  (msg <- script_ledger f ;;
   page <- resumo_section (f_projeto f) (f_cliente f) (f_responsavel f)
             (f_mao_obra f) (f_impostos f) ;;
   ret (msg, page))%py.

(* ================================================================== *)
(** * Properties *)

(** ** Floats: zero tests and signs *)

Lemma Prim2SF_zero : Prim2SF 0 = S754_zero false.
Proof. reflexivity. Qed.

Lemma eqb_zero_inv (x : float) :
  (x =? 0)%float = true -> x = 0%float \/ x = (-0)%float.
Proof.
  rewrite eqb_spec, Prim2SF_zero. intros H.
  rewrite <- (SF2Prim_Prim2SF x).
  destruct (Prim2SF x) as [s | s | | s m e]; try discriminate.
  - destruct s; [right | left]; reflexivity.
  - destruct s; discriminate.
  - destruct s; discriminate.
Qed.

Lemma not_leb_zero_not_eqb (x : float) :
  (x <=? 0)%float = false -> (x =? 0)%float = false.
Proof.
  rewrite leb_spec, eqb_spec, Prim2SF_zero.
  destruct (Prim2SF x) as [s | s | | s m e]; try reflexivity;
    try (destruct s; reflexivity).
  discriminate.
Qed.

Lemma float_or_zero_div (w : float) :
  (1 + float_or w 0 / 100)%float = (1 + w / 100)%float.
Proof.
  unfold float_or. destruct (w =? 0)%float eqn:E; [ | reflexivity ].
  destruct (eqb_zero_inv w E) as [-> | ->]; reflexivity.
Qed.

(** [round_half_even_div a b] is an integer nearest to [a / b], the even
    one of the two when [a / b] lies half-way. *)
Lemma round_half_even_div_nearest (a b : Z) :
  0 <= a -> 0 < b ->
  0 <= round_half_even_div a b
  /\ 2 * Z.abs (a - round_half_even_div a b * b) <= b
  /\ (2 * Z.abs (a - round_half_even_div a b * b) = b ->
      Z.even (round_half_even_div a b) = true).
Proof.
  intros Ha Hb. unfold round_half_even_div.
  pose proof (Z_div_mod a b ltac:(lia)) as E.
  destruct (Z.div_eucl a b) as [q r]. destruct E as [E Hr].
  assert (Hq : 0 <= q) by nia.
  destruct (Z.compare_spec (2 * r) b) as [Heq | Hlt | Hgt].
  - destruct (Z.even q) eqn:Ev.
    + repeat split; [ lia | lia | auto ].
    + repeat split; [ lia | lia | ].
      intros _. rewrite Z.add_1_r, Z.even_succ, <- Z.negb_even, Ev. reflexivity.
  - repeat split; [ lia | lia | lia ].
  - repeat split; [ lia | lia | lia ].
Qed.

(** ** C1: the quantity calculator *)

(** The value [calc_qtd_necessaria] returns, as one equation. *)
Lemma calc_qtd_necessaria_run (m c w : float) :
  calc_qtd_necessaria m c w
  = Ok (if (c <=? 0)%float then 0 else m / c * (1 + w / 100))%float.
Proof.
  unfold calc_qtd_necessaria.
  destruct (c <=? 0)%float eqn:Hc; [ reflexivity | ].
  unfold py_truediv.
  change (100 =? 0)%float with false. cbn [rbind].
  rewrite (not_leb_zero_not_eqb c Hc). cbn [rbind].
  now rewrite float_or_zero_div.
Qed.

(** C1. For every measurement [m], coverage [c] and waste percent [w],
    [calc_qtd_necessaria m c w] returns [0.0] when [c <= 0] and
    [(m / c) * (1 + w / 100)] otherwise. It always returns a value: it
    raises nothing, the divisor [c] being non-zero whenever the division
    is reached, and the divisor [100.0] always. *)
Theorem calc_qtd_necessaria_spec (m c w : float) :
  calc_qtd_necessaria m c w
  = Ok (if (c <=? 0)%float then 0 else m / c * (1 + w / 100))%float
  /\ ((c <=? 0) || negb (c =? 0))%float = true
  /\ (100 =? 0)%float = false.
Proof.
  split; [ | split; [ | reflexivity ] ].
  - unfold calc_qtd_necessaria, py_truediv.
    destruct (c <=? 0)%float eqn:Hc; [ reflexivity | ].
    change (100 =? 0)%float with false. cbn [rbind].
    rewrite (not_leb_zero_not_eqb c Hc). cbn [rbind].
    f_equal. f_equal. apply float_or_zero_div.
  - destruct (c <=? 0)%float eqn:Hc; [ reflexivity | ].
    now rewrite (not_leb_zero_not_eqb c Hc).
Qed.

(** ** Dicts *)

Lemma mem_string_false_not_In (k : string) (l : list string) :
  mem_string k l = false -> ~ In k l.
Proof.
  unfold mem_string. induction l as [ | a l IH]; cbn; intros H;
    [ intros [] | ].
  apply orb_false_iff in H. destruct H as [Ha Hl].
  intros [-> | Hin]; [ | now apply IH ].
  now rewrite String.eqb_refl in Ha.
Qed.

Lemma dict_get_not_key (d : dict) (k : string) :
  ~ In k (dict_keys d) -> dict_get d k = None.
Proof.
  induction d as [ | [k' v] d IH]; cbn; intros H; [ reflexivity | ].
  destruct (String.eqb_spec k' k) as [-> | Hne].
  - exfalso. apply H. now left.
  - apply IH. intros Hin. apply H. now right.
Qed.

Lemma dict_get_set (d : dict) (k k' : string) (v : pyval) :
  dict_get (dict_set d k v) k'
  = if String.eqb k k' then Some v else dict_get d k'.
Proof.
  induction d as [ | [k0 v0] d IH]; cbn.
  - reflexivity.
  - destruct (String.eqb_spec k0 k) as [-> | Hne]; cbn.
    + destruct (String.eqb k k'); reflexivity.
    + rewrite IH. destruct (String.eqb_spec k0 k') as [-> | Hne'].
      * destruct (String.eqb_spec k k'); [ congruence | reflexivity ].
      * reflexivity.
Qed.

Lemma dict_set_fresh (d : dict) (k : string) (v : pyval) :
  dict_get d k = None -> dict_set d k v = d ++ [(k, v)].
Proof.
  induction d as [ | [k0 v0] d IH]; cbn; intros H; [ reflexivity | ].
  destruct (String.eqb k0 k); [ discriminate | ].
  now rewrite IH.
Qed.

(** After [d.update(e)] a key of [e] holds the value [e] gives it and every
    other key keeps the value it had in [d]. *)
Lemma dict_get_update (e : dict) :
  dict_wf e = true ->
  forall (d : dict) (k : string),
    dict_get (dict_update d e) k
    = match dict_get e k with Some v => Some v | None => dict_get d k end.
Proof.
  unfold dict_update, dict_wf.
  induction e as [ | [k0 v0] e IH]; cbn [fold_left dict_get dict_keys map fst snd distinct];
    intros Hwf d k; [ reflexivity | ].
  apply andb_true_iff in Hwf. destruct Hwf as [Hfresh Hwf].
  apply negb_true_iff in Hfresh.
  rewrite (IH Hwf), dict_get_set.
  destruct (String.eqb_spec k0 k) as [-> | Hne]; [ | reflexivity ].
  rewrite dict_get_not_key; [ reflexivity | ].
  unfold dict_keys. now apply mem_string_false_not_In.
Qed.

(** When the keys of [e] are new to [d], [d.update(e)] appends [e]. *)
Lemma dict_update_fresh (e : dict) :
  dict_wf e = true ->
  forall d : dict,
    (forall k, In k (dict_keys e) -> dict_get d k = None) ->
    dict_update d e = d ++ e.
Proof.
  unfold dict_update, dict_wf.
  induction e as [ | [k0 v0] e IH]; cbn [fold_left dict_keys map fst snd distinct];
    intros Hwf d Hd.
  - now rewrite app_nil_r.
  - apply andb_true_iff in Hwf. destruct Hwf as [Hfresh Hwf].
    apply negb_true_iff in Hfresh.
    rewrite (dict_set_fresh d k0 v0) by (apply Hd; now left).
    rewrite (IH Hwf).
    + now rewrite <- app_assoc.
    + intros k Hk. fold (dict_set d k0 v0).
      assert (Hne : k0 <> k).
      { intros ->. now apply (mem_string_false_not_In _ _ Hfresh). }
      assert (Hg := dict_get_set d k0 k v0).
      rewrite (dict_set_fresh d k0 v0) in Hg by (apply Hd; now left).
      rewrite Hg. destruct (String.eqb_spec k0 k); [ congruence | ].
      apply Hd. now right.
Qed.

Lemma disjoint_from_fixed_get (e : dict) (k : string) (d : dict) :
  disjoint_from_fixed e = true ->
  dict_keys d = fixed_columns ->
  In k (dict_keys e) -> dict_get d k = None.
Proof.
  unfold disjoint_from_fixed. intros H Hd Hin.
  rewrite forallb_forall in H. specialize (H k Hin).
  apply negb_true_iff in H.
  apply dict_get_not_key. rewrite Hd.
  now apply mem_string_false_not_In.
Qed.

Lemma dict_get_key (d : dict) (k : string) (v : pyval) :
  dict_get d k = Some v -> In k (dict_keys d).
Proof.
  induction d as [ | [k' v'] d IH]; cbn; [ discriminate | ].
  destruct (String.eqb_spec k' k) as [-> | Hne]; auto.
Qed.

Lemma disjoint_from_fixed_mem (e : dict) (k : string) :
  disjoint_from_fixed e = true -> In k (dict_keys e) ->
  mem_string k fixed_columns = false.
Proof.
  unfold disjoint_from_fixed. intros H Hin.
  rewrite forallb_forall in H. now apply negb_true_iff, H.
Qed.

Lemma mem_string_In (k : string) (l : list string) :
  In k l -> mem_string k l = true.
Proof.
  intros H. unfold mem_string. apply existsb_exists.
  exists k. split; [ exact H | apply String.eqb_refl ].
Qed.

(** ** The ledger *)

Lemma float_or_zero_cases (p : float) :
  float_or p 0 = p \/ p = (-0)%float.
Proof.
  unfold float_or. destruct (p =? 0)%float eqn:E; [ | now left ].
  destruct (eqb_zero_inv p E) as [-> | ->]; [ now left | now right ].
Qed.

(** [add_item] never raises on an initialised session: it appends the item
    of the call and leaves the rest of the world alone. *)
Lemma add_item_call_run (c : call) (t : datetime) (l : list dict) :
  add_item_call c {| clock := t; session_items := Some l |}
  = Ok (tt, {| clock := t; session_items := Some (l ++ [item_of_call c]) |}).
Proof.
  unfold add_item_call, add_item, bind, lift.
  rewrite calc_qtd_necessaria_run. reflexivity.
Qed.


Lemma item_of_call_fresh (c : call) :
  dict_wf (c_especificacoes c) = true ->
  disjoint_from_fixed (c_especificacoes c) = true ->
  item_of_call c
  = fixed_fields (c_material c) (c_medida c) (c_cobertura c) (c_unidade c)
      (c_desperdicio c)
      (qtd_of (c_medida c) (c_cobertura c) (c_desperdicio c))
      (float_or (c_preco_unit c) 0)
      (py_round
         (float_or (c_preco_unit c) 0
            * qtd_of (c_medida c) (c_cobertura c) (c_desperdicio c))%float 2)
    ++ c_especificacoes c.
Proof.
  intros Hwf Hdis. unfold item_of_call.
  apply dict_update_fresh; [ exact Hwf | ].
  intros k Hk. now apply (disjoint_from_fixed_get (c_especificacoes c)).
Qed.

(** ** C2: what [add_item] stores *)

(** C2. For every valid input (the extra fields form a dict whose keys are
    none of the eight fixed column names) [add_item] appends one item to
    the end of the ledger. Read back by name from the stored item:
    [Qtd Necessária] is the result of [calc_qtd_necessaria] rounded to 3
    places, [Subtotal] is the unit price (or [0.0]) times that quantity
    rounded to 2 places, the other six fixed fields hold the arguments (a
    unit price of negative zero is stored as [0.0]) and every extra field
    holds its value; the keys of the item are the eight fixed names followed
    by the extra keys. *)
Theorem add_item_stores
  (material : string) (medida cobertura : float) (unidade : string)
  (desperdicio preco_unit : float) (especificacoes : dict)
  (t : datetime) (l : list dict) :
  dict_wf especificacoes = true ->
  disjoint_from_fixed especificacoes = true ->
  exists (q qtd subtotal : float) (item : dict),
    calc_qtd_necessaria medida cobertura desperdicio = Ok q
    /\ qtd = py_round q 3
    /\ subtotal = py_round (float_or preco_unit 0 * qtd)%float 2
    /\ add_item material medida cobertura unidade desperdicio preco_unit
         especificacoes {| clock := t; session_items := Some l |}
       = Ok (tt, {| clock := t; session_items := Some (l ++ [item]) |})
    /\ dict_get item "Qtd Necessária" = Some (PFloat qtd)
    /\ dict_get item "Subtotal" = Some (PFloat subtotal)
    /\ dict_get item "Material" = Some (PStr material)
    /\ dict_get item "Medida" = Some (PFloat medida)
    /\ dict_get item "Cobertura por Unidade" = Some (PFloat cobertura)
    /\ dict_get item "Unidade" = Some (PStr unidade)
    /\ dict_get item "Desperdício (%)" = Some (PFloat desperdicio)
    /\ dict_get item "Preço Unitário" = Some (PFloat (float_or preco_unit 0))
    /\ (float_or preco_unit 0 = preco_unit \/ preco_unit = (-0)%float)
    /\ (forall k v,
          dict_get especificacoes k = Some v -> dict_get item k = Some v)
    /\ dict_keys item = (fixed_columns ++ dict_keys especificacoes)%list.
Proof.
  intros Hwf Hdis.
  pose (c := {| c_material := material; c_medida := medida;
                c_cobertura := cobertura; c_unidade := unidade;
                c_desperdicio := desperdicio; c_preco_unit := preco_unit;
                c_especificacoes := especificacoes |}).
  exists (if (cobertura <=? 0)%float then 0
          else medida / cobertura * (1 + desperdicio / 100))%float,
    (qtd_of medida cobertura desperdicio),
    (py_round (float_or preco_unit 0
                 * qtd_of medida cobertura desperdicio)%float 2),
    (item_of_call c).
  split; [ apply calc_qtd_necessaria_run | ].
  split; [ reflexivity | ].
  split; [ reflexivity | ].
  split; [ apply (add_item_call_run c) | ].
  assert (Hget : forall k,
             dict_get especificacoes k = None ->
             dict_get (item_of_call c) k
             = dict_get
                 (fixed_fields material medida cobertura unidade desperdicio
                    (qtd_of medida cobertura desperdicio)
                    (float_or preco_unit 0)
                    (py_round
                       (float_or preco_unit 0
                          * qtd_of medida cobertura desperdicio)%float 2)) k).
  { intros k Hk. unfold item_of_call; cbn [c c_material c_medida c_cobertura
      c_unidade c_desperdicio c_preco_unit c_especificacoes].
    now rewrite (dict_get_update especificacoes Hwf), Hk. }
  assert (Hnone : forall k, In k fixed_columns ->
                            dict_get especificacoes k = None).
  { intros k Hk. destruct (dict_get especificacoes k) as [v | ] eqn:E;
      [ | reflexivity ].
    pose proof (disjoint_from_fixed_mem especificacoes k Hdis
                  (dict_get_key especificacoes k v E)) as Hm.
    now rewrite (mem_string_In k fixed_columns Hk) in Hm. }
  split; [ rewrite Hget; [ reflexivity | apply Hnone; cbn; auto 10 ] | ].
  split; [ rewrite Hget; [ reflexivity | apply Hnone; cbn; auto 10 ] | ].
  split; [ rewrite Hget; [ reflexivity | apply Hnone; cbn; auto 10 ] | ].
  split; [ rewrite Hget; [ reflexivity | apply Hnone; cbn; auto 10 ] | ].
  split; [ rewrite Hget; [ reflexivity | apply Hnone; cbn; auto 10 ] | ].
  split; [ rewrite Hget; [ reflexivity | apply Hnone; cbn; auto 10 ] | ].
  split; [ rewrite Hget; [ reflexivity | apply Hnone; cbn; auto 10 ] | ].
  split; [ rewrite Hget; [ reflexivity | apply Hnone; cbn; auto 10 ] | ].
  split; [ apply float_or_zero_cases | ].
  split.
  - intros k v Hk. unfold item_of_call; cbn [c c_material c_medida c_cobertura
      c_unidade c_desperdicio c_preco_unit c_especificacoes].
    now rewrite (dict_get_update especificacoes Hwf), Hk.
  - rewrite (item_of_call_fresh c Hwf Hdis). unfold dict_keys.
    rewrite map_app. reflexivity.
Qed.

(** ** C7: the cement scenario *)

(** C7. Adding material "Cimento" with measurement 50, coverage 25, waste
    10 % and unit price 30 (no extra fields) appends an item from which
    [Qtd Necessária] reads back as exactly the float [2.2] and [Subtotal]
    as exactly [66.0]; the quantity formula gives [2.2] already before the
    rounding to 3 places, and the product [30 * 2.2] is [66.0]. The item
    has the eight fixed keys and holds the inputs under their names. *)
Theorem add_item_cimento (unidade : string) (t : datetime) (l : list dict) :
  exists item : dict,
    add_item "Cimento" 50 25 unidade 10 30 []
      {| clock := t; session_items := Some l |}
    = Ok (tt, {| clock := t; session_items := Some (l ++ [item]) |})
    /\ dict_get item "Qtd Necessária" = Some (PFloat 2.2)
    /\ dict_get item "Subtotal" = Some (PFloat 66)
    /\ calc_qtd_necessaria 50 25 10 = Ok 2.2%float
    /\ py_round 2.2 3 = 2.2%float
    /\ py_round (30 * 2.2)%float 2 = 66%float
    /\ dict_get item "Material" = Some (PStr "Cimento")
    /\ dict_get item "Medida" = Some (PFloat 50)
    /\ dict_get item "Cobertura por Unidade" = Some (PFloat 25)
    /\ dict_get item "Unidade" = Some (PStr unidade)
    /\ dict_get item "Desperdício (%)" = Some (PFloat 10)
    /\ dict_get item "Preço Unitário" = Some (PFloat 30)
    /\ dict_keys item = fixed_columns.
Proof.
  pose (c := {| c_material := "Cimento"; c_medida := 50; c_cobertura := 25;
                c_unidade := unidade; c_desperdicio := 10;
                c_preco_unit := 30; c_especificacoes := [] |}).
  exists (item_of_call c).
  split; [ apply (add_item_call_run c) | ].
  assert (Hq : qtd_of 50 25 10 = 2.2%float) by (vm_compute; reflexivity).
  assert (Hp : float_or 30 0 = 30%float) by (vm_compute; reflexivity).
  assert (Hs : py_round (30 * 2.2)%float 2 = 66%float)
    by (vm_compute; reflexivity).
  unfold item_of_call, c, dict_update; cbn [fold_left c_material
    c_medida c_cobertura c_unidade c_desperdicio c_preco_unit c_especificacoes].
  rewrite Hq, Hp, Hs.
  split; [ reflexivity | ].
  split; [ reflexivity | ].
  split; [ vm_compute; reflexivity | ].
  split; [ vm_compute; reflexivity | ].
  repeat (split; [ reflexivity | ]). reflexivity.
Qed.

(** ** C8: extra fields are merged last *)

(** C8. The extra fields are merged after the fixed ones: in the stored
    item every key of the extra fields holds the extra fields' value, also
    when the key is one of the eight fixed column names (the computed
    [Subtotal] or [Qtd Necessária] is then overwritten); a key the extra
    fields do not have keeps the fixed value, so the derived fields are
    intact when the extra keys avoid the fixed names. *)
Theorem add_item_extra_overrides
  (material : string) (medida cobertura : float) (unidade : string)
  (desperdicio preco_unit : float) (especificacoes : dict)
  (t : datetime) (l : list dict) :
  dict_wf especificacoes = true ->
  exists item : dict,
    add_item material medida cobertura unidade desperdicio preco_unit
      especificacoes {| clock := t; session_items := Some l |}
    = Ok (tt, {| clock := t; session_items := Some (l ++ [item]) |})
    /\ (forall k v, In k fixed_columns ->
          dict_get especificacoes k = Some v -> dict_get item k = Some v)
    /\ (forall k v,
          dict_get especificacoes k = Some v -> dict_get item k = Some v)
    /\ (forall k,
          dict_get especificacoes k = None ->
          dict_get item k
          = dict_get
              (fixed_fields material medida cobertura unidade desperdicio
                 (qtd_of medida cobertura desperdicio)
                 (float_or preco_unit 0)
                 (py_round
                    (float_or preco_unit 0
                       * qtd_of medida cobertura desperdicio)%float 2)) k).
Proof.
  intros Hwf.
  pose (c := {| c_material := material; c_medida := medida;
                c_cobertura := cobertura; c_unidade := unidade;
                c_desperdicio := desperdicio; c_preco_unit := preco_unit;
                c_especificacoes := especificacoes |}).
  exists (item_of_call c).
  split; [ apply (add_item_call_run c) | ].
  unfold item_of_call; cbn [c c_material c_medida c_cobertura c_unidade
    c_desperdicio c_preco_unit c_especificacoes].
  repeat split.
  - intros k v _ Hk. now rewrite (dict_get_update especificacoes Hwf), Hk.
  - intros k v Hk. now rewrite (dict_get_update especificacoes Hwf), Hk.
  - intros k Hk. now rewrite (dict_get_update especificacoes Hwf), Hk.
Qed.

(** ** C3: the ledger only grows *)

Lemma run_calls_run (cs : list call) :
  forall (t : datetime) (l : list dict),
    run_calls cs {| clock := t; session_items := Some l |}
    = Ok (tt, {| clock := t; session_items := Some (l ++ map item_of_call cs) |}).
Proof.
  induction cs as [ | c cs IH]; intros t l; cbn [run_calls map].
  - unfold ret. now rewrite app_nil_r.
  - unfold bind. rewrite add_item_call_run, IH.
    now rewrite <- app_assoc.
Qed.

(** C3. From a fresh session, after the calls [cs] of [add_item] the
    summary table has exactly [length cs] rows and row [i] is the row of
    the item of call [i]; [add_item] keeps the items already stored, in
    their order, and the session initialisation leaves an existing ledger
    untouched. *)
Theorem ledger_append_only (cs : list call) (t : datetime) :
  exists df : DataFrame,
    (init_session ;;; run_calls cs ;;; df_resumo)%py
      {| clock := t; session_items := None |}
    = Ok (df, {| clock := t; session_items := Some (map item_of_call cs) |})
    /\ List.length (rows df) = List.length cs
    /\ rows df = map (fun c => record_row (columns df) (item_of_call c)) cs
    /\ (forall c t' l,
          add_item_call c {| clock := t'; session_items := Some l |}
          = Ok (tt, {| clock := t'; session_items := Some (l ++ [item_of_call c]) |}))
    /\ (forall t' l,
          init_session {| clock := t'; session_items := Some l |}
          = Ok (tt, {| clock := t'; session_items := Some l |})).
Proof.
  exists (match cs with
          | [] => DataFrame_new
          | _ :: _ => DataFrame_of_records (map item_of_call cs)
          end).
  split.
  - unfold bind at 1. cbn [init_session session_items clock].
    unfold bind. rewrite run_calls_run. cbn [app].
    unfold df_resumo, bind, session_state_get_items, ret.
    cbn [session_items]. destruct cs; reflexivity.
  - split; [ | split; [ | split ] ].
    + destruct cs as [ | c cs]; [ reflexivity | ].
      cbn [rows DataFrame_of_records]. now rewrite !length_map.
    + destruct cs as [ | c cs]; [ reflexivity | ].
      cbn [rows columns DataFrame_of_records]. now rewrite map_map.
    + intros c t' l. apply add_item_call_run.
    + reflexivity.
Qed.


(** ** Floats: rounding to nearest keeps the sign *)

Lemma shr_1_nonneg (mrs : shr_record) :
  0 <= shr_m mrs -> 0 <= shr_m (shr_1 mrs).
Proof.
  destruct mrs as [m r s]. cbn [shr_m].
  destruct m as [ | p | p ]; [ | destruct p | ]; cbn; lia.
Qed.

Lemma iter_pos_shr_1_nonneg (p : positive) :
  forall mrs : shr_record,
    0 <= shr_m mrs -> 0 <= shr_m (iter_pos shr_1 p mrs).
Proof.
  induction p as [p IH | p IH | ]; intros mrs H; cbn [iter_pos].
  - apply IH, IH, shr_1_nonneg, H.
  - apply IH, IH, H.
  - apply shr_1_nonneg, H.
Qed.

Lemma shr_fexp_nonneg (m e : Z) (l : location) :
  0 <= m -> 0 <= shr_m (fst (shr_fexp prec emax m e l)).
Proof.
  intros H. unfold shr_fexp, shr.
  assert (H0 : 0 <= shr_m (shr_record_of_loc m l))
    by (destruct l as [ | [ | | ] ]; exact H).
  destruct (fexp prec emax (Zdigits2 m + e) - e); cbn [fst]; auto.
  now apply iter_pos_shr_1_nonneg.
Qed.

Lemma round_nearest_even_nonneg (m : Z) (l : location) :
  0 <= m -> 0 <= round_nearest_even m l.
Proof.
  intros H. destruct l as [ | [ | | ] ]; cbn; try lia.
  destruct (Z.even m); lia.
Qed.

Lemma binary_round_aux_nonneg (m e : Z) (l : location) :
  0 <= m -> SFleb (S754_zero false) (binary_round_aux prec emax false m e l) = true.
Proof.
  intros H. unfold binary_round_aux.
  pose proof (shr_fexp_nonneg m e l H) as H1.
  destruct (shr_fexp prec emax m e l) as [mrs' e']. cbn [fst] in H1.
  pose proof (shr_fexp_nonneg _ e' loc_Exact
                (round_nearest_even_nonneg _ (loc_of_shr_record mrs') H1)) as H2.
  destruct (shr_fexp prec emax _ e' loc_Exact) as [mrs'' e'']. cbn [fst] in H2.
  destruct (shr_m mrs'') as [ | p | p ]; [ reflexivity | | lia ].
  destruct (e'' <=? emax - prec); reflexivity.
Qed.

Lemma binary_round_aux_not_neg (m e : Z) (l : location) :
  SFltb (binary_round_aux prec emax false m e l) (S754_zero false) = false.
Proof.
  unfold binary_round_aux.
  destruct (shr_fexp prec emax m e l) as [mrs' e'].
  destruct (shr_fexp prec emax _ e' loc_Exact) as [mrs'' e''].
  destruct (shr_m mrs'') as [ | p | p ]; [ reflexivity | | reflexivity ].
  destruct (e'' <=? emax - prec); reflexivity.
Qed.

Lemma SFleb_zero_not_neg (x : spec_float) :
  SFleb (S754_zero false) x = true -> SFltb x (S754_zero false) = false.
Proof. destruct x as [ [ | ] | [ | ] | | [ | ] m e ]; cbn; congruence. Qed.

Lemma SFltb_not_neg_cases (x : spec_float) :
  SFltb x (S754_zero false) = false -> x = S754_nan \/ SFleb (S754_zero false) x = true.
Proof. destruct x as [ [ | ] | [ | ] | | [ | ] m e ]; cbn; auto; discriminate. Qed.

Lemma SFmul_not_neg (x y : spec_float) :
  SFltb x (S754_zero false) = false -> SFltb y (S754_zero false) = false ->
  SFltb (SFmul prec emax x y) (S754_zero false) = false.
Proof.
  destruct x as [ [ | ] | [ | ] | | [ | ] mx ex ];
    destruct y as [ [ | ] | [ | ] | | [ | ] my ey ];
    intros Hx Hy; try discriminate Hx; try discriminate Hy; try reflexivity.
  apply binary_round_aux_not_neg.
Qed.

Lemma SFmul_nonneg (x y : spec_float) :
  SFleb (S754_zero false) x = true -> SFleb (S754_zero false) y = true ->
  (forall s, x <> S754_infinity s) -> (forall s, y <> S754_infinity s) ->
  SFleb (S754_zero false) (SFmul prec emax x y) = true.
Proof.
  destruct x as [ [ | ] | [ | ] | | [ | ] mx ex ];
    destruct y as [ [ | ] | [ | ] | | [ | ] my ey ];
    intros Hx Hy Fx Fy; try discriminate Hx; try discriminate Hy;
    try reflexivity;
    try (exfalso; eapply Fx; reflexivity);
    try (exfalso; eapply Fy; reflexivity).
  apply binary_round_aux_nonneg. cbn. lia.
Qed.

Lemma SFdiv_not_neg (x y : spec_float) :
  SFltb x (S754_zero false) = false -> SFltb (S754_zero false) y = true ->
  SFltb (SFdiv prec emax x y) (S754_zero false) = false.
Proof.
  destruct x as [ [ | ] | [ | ] | | [ | ] mx ex ];
    destruct y as [ [ | ] | [ | ] | | [ | ] my ey ];
    intros Hx Hy; try discriminate Hx; try discriminate Hy; try reflexivity.
  unfold SFdiv.
  destruct (SFdiv_core_binary prec emax (Z.pos mx) ex (Z.pos my) ey)
    as [ [mz ez] lz ].
  apply binary_round_aux_not_neg.
Qed.

Lemma SFadd_not_neg (x y : spec_float) :
  SFltb x (S754_zero false) = false -> SFltb y (S754_zero false) = false ->
  SFltb (SFadd prec emax x y) (S754_zero false) = false.
Proof.
  destruct x as [ [ | ] | [ | ] | | [ | ] mx ex ];
    destruct y as [ [ | ] | [ | ] | | [ | ] my ey ];
    intros Hx Hy; try discriminate Hx; try discriminate Hy; try reflexivity.
  unfold SFadd, cond_Zopp. cbn [Z.add].
  unfold binary_normalize, binary_round.
  destruct (shl_align _ _ _) as [mz ez].
  apply binary_round_aux_not_neg.
Qed.

Lemma div_eucl_nonneg (a : Z) (b : positive) :
  0 <= a -> 0 <= fst (Z.div_eucl a (Z.pos b)).
Proof.
  intros H. pose proof (Z_div_mod a (Z.pos b) eq_refl) as E.
  destruct (Z.div_eucl a (Z.pos b)) as [q r]. cbn [fst]. nia.
Qed.

Lemma SFdiv_core_binary_nonneg (m1 m2 : positive) (e1 e2 : Z) :
  0 <= fst (fst (SFdiv_core_binary prec emax (Z.pos m1) e1 (Z.pos m2) e2)).
Proof.
  unfold SFdiv_core_binary.
  set (s := e1 - e2 - _).
  set (m' := match s with Z.pos _ => _ | Z0 => _ | Z.neg _ => _ end).
  assert (Hm : 0 <= m').
  { unfold m'. destruct s; [ lia | | lia ].
    apply Z.shiftl_nonneg. lia. }
  pose proof (div_eucl_nonneg m' m2 Hm) as Hq.
  destruct (Z.div_eucl m' (Z.pos m2)) as [q r]. exact Hq.
Qed.

Lemma nearest_quotient_nonneg (n d : Z) :
  SFleb (S754_zero false) (nearest_quotient false n d) = true.
Proof.
  unfold nearest_quotient.
  destruct n as [ | n | n ]; try reflexivity.
  destruct d as [ | d | d ]; try reflexivity.
  unfold SFdiv.
  pose proof (SFdiv_core_binary_nonneg n d 0 0) as H.
  destruct (SFdiv_core_binary prec emax (Z.pos n) 0 (Z.pos d) 0)
    as [ [mz ez] lz ].
  now apply binary_round_aux_nonneg.
Qed.

Lemma SF_round_nonneg (x : spec_float) (nd : Z) :
  SFleb (S754_zero false) x = true -> SFleb (S754_zero false) (SF_round x nd) = true.
Proof.
  destruct x as [ s | s | | [ | ] m e ]; cbn [SF_round]; auto.
  - discriminate.
  - intros _. apply nearest_quotient_nonneg.
Qed.

Lemma binary_round_nonneg (m : positive) (e : Z) :
  SFleb (S754_zero false) (binary_round prec emax false m e) = true.
Proof.
  unfold binary_round. destruct (shl_align _ _ _) as [mz ez].
  apply binary_round_aux_nonneg. lia.
Qed.

(** The float built from a non-negative [spec_float] is non-negative, also
    when the mantissa is not in canonical form. *)
Lemma SF2Prim_nonneg (x : spec_float) :
  SFleb (S754_zero false) x = true -> SFleb (S754_zero false) (Prim2SF (SF2Prim x)) = true.
Proof.
  destruct x as [ [ | ] | [ | ] | | [ | ] m e ]; intros H;
    try discriminate H; try reflexivity.
  cbn [SF2Prim]. rewrite Z_ldexp_spec, of_uint63_spec.
  match goal with
  | |- context [binary_normalize _ _ ?z _ _] =>
      pose proof (Uint63.to_Z_bounded (Uint63.of_Z (Z.pos m))) as [Hb _];
      destruct z as [ | p | p ]; [ reflexivity | | lia ]
  end.
  cbn [binary_normalize].
  pose proof (binary_round_nonneg p 0) as Hp.
  destruct (binary_round prec emax false p 0) as [ s | s | | s m' e' ];
    try exact Hp; try discriminate Hp.
  cbn [SFldexp]. destruct s; [ discriminate Hp | ].
  apply binary_round_nonneg.
Qed.

Lemma ltb_zero_spec (x : float) : (x <? 0)%float = SFltb (Prim2SF x) (S754_zero false).
Proof. now rewrite ltb_spec, Prim2SF_zero. Qed.

Lemma leb_zero_spec (x : float) : (0 <=? x)%float = SFleb (S754_zero false) (Prim2SF x).
Proof. now rewrite leb_spec, Prim2SF_zero. Qed.

Lemma nonneg_not_neg (x : float) :
  (0 <=? x)%float = true -> (x <? 0)%float = false.
Proof. rewrite leb_zero_spec, ltb_zero_spec. apply SFleb_zero_not_neg. Qed.

Lemma py_round_nonneg (x : float) (nd : Z) :
  (0 <=? x)%float = true -> (0 <=? py_round x nd)%float = true.
Proof.
  rewrite !leb_zero_spec. intros H. unfold py_round.
  now apply SF2Prim_nonneg, SF_round_nonneg.
Qed.

Lemma py_round_not_neg (x : float) (nd : Z) :
  (x <? 0)%float = false -> (py_round x nd <? 0)%float = false.
Proof.
  intros H. assert (H' := H). rewrite ltb_zero_spec in H'.
  destruct (SFltb_not_neg_cases _ H') as [Hn | Hq].
  - unfold py_round. rewrite Hn. reflexivity.
  - apply nonneg_not_neg, py_round_nonneg. now rewrite leb_zero_spec.
Qed.

Lemma mul_not_neg (x y : float) :
  (x <? 0)%float = false -> (y <? 0)%float = false ->
  (x * y <? 0)%float = false.
Proof. rewrite !ltb_zero_spec, mul_spec. apply SFmul_not_neg. Qed.

Lemma add_not_neg (x y : float) :
  (x <? 0)%float = false -> (y <? 0)%float = false ->
  (x + y <? 0)%float = false.
Proof. rewrite !ltb_zero_spec, add_spec. apply SFadd_not_neg. Qed.

Lemma div_not_neg (x y : float) :
  (x <? 0)%float = false -> (0 <? y)%float = true ->
  (x / y <? 0)%float = false.
Proof.
  rewrite !ltb_zero_spec, div_spec, ltb_spec, Prim2SF_zero.
  apply SFdiv_not_neg.
Qed.

Lemma is_finite_inv (x : float) :
  is_finite x = true ->
  Prim2SF x <> S754_nan /\ forall s, Prim2SF x <> S754_infinity s.
Proof.
  unfold is_finite, is_nan, is_infinity.
  rewrite !eqb_spec, abs_spec.
  change (Prim2SF infinity) with (S754_infinity false).
  destruct (Prim2SF x) as [ s | [ | ] | | s m e ]; cbn; intros H;
    try discriminate H; (split; [ | intros s' ]; discriminate).
Qed.

Lemma mul_nonneg_finite (x y : float) :
  (0 <=? x)%float = true -> (0 <=? y)%float = true ->
  is_finite x = true -> is_finite y = true ->
  (0 <=? x * y)%float = true.
Proof.
  rewrite !leb_zero_spec, mul_spec. intros Hx Hy Fx Fy.
  apply SFmul_nonneg; auto.
  - apply (is_finite_inv x Fx).
  - apply (is_finite_inv y Fy).
Qed.

Lemma not_neg_finite_nonneg (x : float) :
  (x <? 0)%float = false -> is_finite x = true -> (0 <=? x)%float = true.
Proof.
  rewrite ltb_zero_spec, leb_zero_spec. intros H F.
  destruct (SFltb_not_neg_cases _ H) as [Hn | Hq]; [ | exact Hq ].
  now destruct (is_finite_inv x F) as [Hnan _].
Qed.

Lemma positive_of_nonneg (c : float) :
  (0 <=? c)%float = true -> (c <=? 0)%float = false -> (0 <? c)%float = true.
Proof.
  rewrite leb_zero_spec, leb_spec, ltb_spec, Prim2SF_zero.
  destruct (Prim2SF c) as [ [ | ] | [ | ] | | [ | ] m e ]; cbn; congruence.
Qed.

Lemma float_or_nonneg (p : float) :
  (0 <=? p)%float = true -> (0 <=? float_or p 0)%float = true.
Proof. unfold float_or. destruct (p =? 0)%float; auto. Qed.

(** ** C9: signs of the stored quantity and subtotal *)

Lemma qtd_of_not_neg (m c w : float) :
  (0 <=? m)%float = true -> (0 <=? c)%float = true ->
  (0 <=? w)%float = true -> (qtd_of m c w <? 0)%float = false.
Proof.
  intros Hm Hc Hw. unfold qtd_of. apply py_round_not_neg.
  destruct (c <=? 0)%float eqn:Ec; [ reflexivity | ].
  apply mul_not_neg.
  - apply div_not_neg; [ now apply nonneg_not_neg | ].
    now apply positive_of_nonneg.
  - apply add_not_neg; [ reflexivity | ].
    apply div_not_neg; [ now apply nonneg_not_neg | reflexivity ].
Qed.

Lemma item_of_call_never_negative (c : call) :
  call_ok c = true -> item_never_negative (item_of_call c).
Proof.
  unfold call_ok. rewrite !andb_true_iff.
  intros [ [ [ [ [Hm Hc] Hw] Hp] Hwf] Hdis].
  rewrite (item_of_call_fresh c Hwf Hdis).
  set (qtd := qtd_of (c_medida c) (c_cobertura c) (c_desperdicio c)).
  set (preco := float_or (c_preco_unit c) 0).
  exists qtd, preco, (py_round (preco * qtd)%float 2).
  assert (Hq : (qtd <? 0)%float = false) by now apply qtd_of_not_neg.
  assert (Hpr : (0 <=? preco)%float = true) by now apply float_or_nonneg.
  repeat (split; [ reflexivity | ]).
  split; [ exact Hq | ].
  split.
  - apply py_round_not_neg, mul_not_neg; [ now apply nonneg_not_neg | exact Hq ].
  - intros Fq Fp.
    assert (Hq' : (0 <=? qtd)%float = true) by now apply not_neg_finite_nonneg.
    split; [ exact Hq' | ].
    now apply py_round_nonneg, mul_nonneg_finite.
Qed.

(** C9 (as amended). If every numeric input of every [add_item] call is
    [>= 0] (and the extra fields avoid the fixed column names), then in
    every ledger reached from a fresh session every stored quantity and
    subtotal is never negative: each is [>= 0] or NaN, and both are [>= 0]
    when the stored quantity and unit price are finite. One more such call
    keeps the property. *)
Theorem ledger_never_negative (cs : list call) (t : datetime) :
  forallb call_ok cs = true ->
  exists l : list dict,
    (init_session ;;; run_calls cs)%py {| clock := t; session_items := None |}
    = Ok (tt, {| clock := t; session_items := Some l |})
    /\ Forall item_never_negative l
    /\ (forall c : call,
          call_ok c = true ->
          add_item_call c {| clock := t; session_items := Some l |}
          = Ok (tt, {| clock := t; session_items := Some (l ++ [item_of_call c]) |})
          /\ Forall item_never_negative (l ++ [item_of_call c])).
Proof.
  intros Hcs. exists (map item_of_call cs).
  assert (Hall : Forall item_never_negative (map item_of_call cs)).
  { rewrite forallb_forall in Hcs. apply Forall_forall. intros r Hr.
    apply in_map_iff in Hr. destruct Hr as [c [<- Hc]].
    apply item_of_call_never_negative, Hcs, Hc. }
  split; [ | split; [ exact Hall | ] ].
  - unfold bind at 1. cbn [init_session session_items clock].
    now rewrite run_calls_run.
  - intros c Hc. split; [ apply add_item_call_run | ].
    apply Forall_app. split; [ exact Hall | ].
    constructor; [ now apply item_of_call_never_negative | constructor ].
Qed.


(** A run of the model on non-negative inputs: the cement scenario. *)
Lemma ledger_never_negative_witness :
  forallb call_ok [cimento_call] = true
  /\ exists l : list dict,
       (init_session ;;; run_calls [cimento_call])%py
         {| clock := sample_time; session_items := None |}
       = Ok (tt, {| clock := sample_time; session_items := Some l |})
       /\ Forall item_never_negative l
       /\ (forall c : call,
             call_ok c = true ->
             add_item_call c {| clock := sample_time; session_items := Some l |}
             = Ok (tt,
                   {| clock := sample_time;
                      session_items := Some (l ++ [item_of_call c]) |})
             /\ Forall item_never_negative (l ++ [item_of_call c])).
Proof.
  split; [ reflexivity | ].
  apply (ledger_never_negative [cimento_call] sample_time). reflexivity.
Defined.

(** C9 as stated fails: all four numeric inputs of [overflow_call] are
    [>= 0], the quotient [1e308 / 0.1] overflows to infinity, and the stored
    subtotal [round(0.0 * inf, 2)] is NaN, which is not [>= 0]. *)
Lemma ledger_subtotal_nan_counterexample :
  call_ok overflow_call = true
  /\ (init_session ;;; run_calls [overflow_call])%py fresh_world
     = Ok (tt,
           {| clock := sample_time;
              session_items :=
                Some [ fixed_fields "Areia" 1e308 0.1 "m3" 5 infinity 0 nan ] |})
  /\ (0 <=? nan)%float = false.
Proof.
  split; [ reflexivity | ].
  split; [ | reflexivity ].
  unfold bind at 1, fresh_world. cbn [init_session session_items clock].
  rewrite run_calls_run. cbn [app map].
  replace (item_of_call overflow_call)
    with (fixed_fields "Areia" 1e308 0.1 "m3" 5 infinity 0 nan);
    [ reflexivity | ].
  unfold item_of_call, overflow_call, dict_update; cbn [fold_left c_material
    c_medida c_cobertura c_unidade c_desperdicio c_preco_unit c_especificacoes].
  assert (Hq : qtd_of 1e308 0.1 5 = infinity) by (vm_compute; reflexivity).
  rewrite Hq.
  assert (Hp : float_or 0 0 = 0%float) by (vm_compute; reflexivity).
  rewrite Hp.
  assert (Hs : py_round (0 * infinity)%float 2 = nan) by (vm_compute; reflexivity).
  rewrite Hs. reflexivity.
Qed.


(** ** The table: columns and the Subtotal column *)

Lemma mem_string_app (k : string) (l1 l2 : list string) :
  mem_string k (l1 ++ l2) = mem_string k l1 || mem_string k l2.
Proof. unfold mem_string. apply existsb_app. Qed.

Lemma add_key_keeps (k : string) (ks : list string) :
  forall acc : list string,
    mem_string k acc = true ->
    mem_string k
      (fold_left (fun acc k' => if mem_string k' acc then acc else acc ++ [k'])
         ks acc) = true.
Proof.
  induction ks as [ | k0 ks IH]; intros acc H; cbn [fold_left]; [ exact H | ].
  apply IH. destruct (mem_string k0 acc); [ exact H | ].
  rewrite mem_string_app, H. reflexivity.
Qed.

Lemma add_key_adds (k : string) (ks : list string) :
  forall acc : list string,
    In k ks ->
    mem_string k
      (fold_left (fun acc k' => if mem_string k' acc then acc else acc ++ [k'])
         ks acc) = true.
Proof.
  induction ks as [ | k0 ks IH]; intros acc H; cbn [fold_left]; [ destruct H | ].
  destruct H as [-> | H]; [ | now apply IH ].
  apply add_key_keeps.
  destruct (mem_string k acc) eqn:E; [ exact E | ].
  rewrite mem_string_app, E. cbn. now rewrite String.eqb_refl.
Qed.

Lemma union_columns_keeps (k : string) (data : list dict) :
  forall acc : list string,
    mem_string k acc = true ->
    mem_string k (fold_left add_columns data acc) = true.
Proof.
  induction data as [ | r data IH]; intros acc H; cbn [fold_left]; [ exact H | ].
  apply IH. now apply add_key_keeps.
Qed.

(** A key of the first record is a column of the table. *)
Lemma union_columns_first (k : string) (r : dict) (data : list dict) :
  In k (dict_keys r) -> mem_string k (union_columns (r :: data)) = true.
Proof.
  intros H. unfold union_columns. cbn [fold_left].
  apply union_columns_keeps. now apply add_key_adds.
Qed.

Lemma index_of_member (c : string) (cols : list string) :
  mem_string c cols = true ->
  exists i : nat,
    index_of c cols = Some i
    /\ forall r : dict, nth i (record_row cols r) (PFloat nan) = cell r c.
Proof.
  unfold mem_string, record_row.
  induction cols as [ | c' cols IH]; cbn [existsb index_of map]; [ discriminate | ].
  rewrite (String.eqb_sym c c').
  destruct (String.eqb_spec c' c) as [-> | Hne].
  - intros _. exists O. split; reflexivity.
  - cbn [orb]. intros H. destruct (IH H) as [i [Hi Hn]].
    exists (S i). rewrite Hi. split; [ reflexivity | exact Hn ].
Qed.

Lemma floats_of_subtotals (data : list dict) (xs : list float) :
  subtotals data = Some xs ->
  map (fun r => cell r "Subtotal") data = map PFloat xs.
Proof.
  revert xs. induction data as [ | r data IH]; cbn [subtotals map]; intros xs H.
  - injection H as <-. reflexivity.
  - unfold subtotal_of, cell in *.
    destruct (dict_get r "Subtotal") as [ [s | x] | ]; try discriminate H.
    destruct (subtotals data) as [xs' | ]; try discriminate H.
    injection H as <-. cbn [map]. now rewrite (IH xs' eq_refl).
Qed.

Lemma floats_of_map_PFloat (xs : list float) :
  floats_of (map PFloat xs) = Some xs.
Proof.
  induction xs as [ | x xs IH]; cbn [map floats_of]; [ reflexivity | ].
  now rewrite IH.
Qed.

Lemma subtotals_first_key (r : dict) (data : list dict) (xs : list float) :
  subtotals (r :: data) = Some xs -> In "Subtotal"%string (dict_keys r).
Proof.
  cbn [subtotals]. unfold subtotal_of.
  destruct (dict_get r "Subtotal") as [ v | ] eqn:E; [ | discriminate ].
  intros _. now apply (dict_get_key r "Subtotal" v).
Qed.

(** The Subtotal column of the table of a ledger lists the subtotals of its
    items, in order. *)
Lemma df_column_subtotal (r : dict) (data : list dict) (xs : list float) :
  subtotals (r :: data) = Some xs ->
  df_column (DataFrame_of_records (r :: data)) "Subtotal" = Ok (map PFloat xs).
Proof.
  intros H. unfold df_column. cbn [columns rows DataFrame_of_records].
  destruct (index_of_member "Subtotal" (union_columns (r :: data)))
    as [i [Hi Hn]].
  { apply union_columns_first. now apply (subtotals_first_key r data xs). }
  rewrite Hi. f_equal. rewrite map_map.
  rewrite <- (floats_of_subtotals (r :: data) xs H).
  apply map_ext. intros r'. apply Hn.
Qed.

Lemma df_of_ledger_not_empty (r : dict) (data : list dict) (xs : list float) :
  subtotals (r :: data) = Some xs ->
  df_empty (DataFrame_of_records (r :: data)) = false.
Proof.
  intros H. unfold df_empty. cbn [columns rows DataFrame_of_records map].
  pose proof (union_columns_first "Subtotal" r data
                (subtotals_first_key r data xs H)) as Hm.
  destruct (union_columns (r :: data)); [ discriminate Hm | reflexivity ].
Qed.

Lemma total_materiais_ledger (r : dict) (data : list dict) (xs : list float) :
  subtotals (r :: data) = Some xs ->
  total_materiais (DataFrame_of_records (r :: data))
  = Ok (ndarray_sum (map nan_to_zero xs)).
Proof.
  intros H. unfold total_materiais.
  cbn [columns DataFrame_of_records].
  rewrite (union_columns_first "Subtotal" r data
             (subtotals_first_key r data xs H)).
  rewrite (df_column_subtotal r data xs H). cbn [rbind].
  unfold Series_sum. now rewrite floats_of_map_PFloat.
Qed.

(** The ledgers [add_item] builds from valid calls have float subtotals. *)
Lemma subtotals_of_calls (cs : list call) :
  forallb (fun c => dict_wf (c_especificacoes c)
                    && disjoint_from_fixed (c_especificacoes c)) cs = true ->
  subtotals (map item_of_call cs)
  = Some (map (fun c =>
                 py_round
                   (float_or (c_preco_unit c) 0
                      * qtd_of (c_medida c) (c_cobertura c) (c_desperdicio c))%float
                   2) cs).
Proof.
  induction cs as [ | c cs IH]; cbn [forallb map subtotals]; [ reflexivity | ].
  rewrite !andb_true_iff. intros [ [Hwf Hdis] Hcs].
  rewrite (IH Hcs), (item_of_call_fresh c Hwf Hdis). reflexivity.
Qed.

(** ** Results and runs *)

Lemma rbind_ok {A B : Type} (r : result A) (k : A -> result B) (b : B) :
  rbind r k = Ok b -> exists a : A, r = Ok a /\ k a = Ok b.
Proof.
  destruct r as [a | e]; cbn [rbind]; [ intros H; now exists a | discriminate ].
Qed.

Lemma bind_ok {A B : Type} (m : M A) (k : A -> M B) (w w2 : world) (b : B) :
  bind m k w = Ok (b, w2) ->
  exists (a : A) (w1 : world), m w = Ok (a, w1) /\ k a w1 = Ok (b, w2).
Proof.
  unfold bind. destruct (m w) as [ [a w1] | e ];
    [ intros H; now exists a, w1 | discriminate ].
Qed.

Lemma lift_ok {A : Type} (r : result A) (w w1 : world) (a : A) :
  lift r w = Ok (a, w1) -> r = Ok a /\ w1 = w.
Proof.
  unfold lift. destruct r as [a0 | e]; [ | discriminate ].
  intros H. injection H as -> ->. split; reflexivity.
Qed.

Lemma lift_run {A : Type} (r : result A) (w : world) :
  lift r w = (let? a := r in Ok (a, w))%result.
Proof. destruct r; reflexivity. Qed.

Lemma rmap_map_ok {A B : Type} (f : A -> result B) (g : A -> B) :
  (forall a b, f a = Ok b -> b = g a) ->
  forall (l : list A) (l' : list B), rmap f l = Ok l' -> l' = map g l.
Proof.
  intros Hf. induction l as [ | a l IH]; cbn [rmap map]; intros l' H.
  - now injection H as <-.
  - apply rbind_ok in H. destruct H as [b [Hb H] ].
    apply rbind_ok in H. destruct H as [bs [Hbs H] ].
    injection H as <-. now rewrite (Hf a b Hb), (IH bs Hbs).
Qed.

(** ** Computations that leave the world as they found it *)

Lemma preserves_ret {A : Type} (a : A) : preserves_world (ret a).
Proof. intros w. reflexivity. Qed.

Lemma preserves_lift {A : Type} (r : result A) : preserves_world (lift r).
Proof. intros w. unfold lift. destruct r; reflexivity. Qed.

Lemma preserves_bind {A B : Type} (m : M A) (k : A -> M B) :
  preserves_world m -> (forall a, preserves_world (k a)) ->
  preserves_world (bind m k).
Proof.
  intros Hm Hk w. unfold bind. specialize (Hm w).
  destruct (m w) as [ [a w'] | e ]; [ | exact I ].
  subst w'. apply Hk.
Qed.

Lemma preserves_ok {A : Type} (m : M A) (w w1 : world) (a : A) :
  preserves_world m -> m w = Ok (a, w1) -> w1 = w.
Proof. intros Hm H. specialize (Hm w). now rewrite H in Hm. Qed.

Lemma preserves_datetime_now : preserves_world datetime_now.
Proof. intros w. reflexivity. Qed.

Lemma preserves_df_resumo : preserves_world df_resumo.
Proof.
  unfold df_resumo. apply preserves_bind; [ | intros; apply preserves_ret ].
  intros w. unfold session_state_get_items.
  destruct (session_items w); reflexivity.
Qed.

Lemma preserves_make_pdf_bytes (df : DataFrame)
  (projeto cliente responsavel : string) (custos_extra : custos) :
  preserves_world (make_pdf_bytes df projeto cliente responsavel custos_extra).
Proof.
  unfold make_pdf_bytes.
  apply preserves_bind; [ apply preserves_lift | intros titulo ].
  apply preserves_bind; [ apply preserves_datetime_now | intros agora ].
  apply preserves_bind; [ apply preserves_lift | intros meta ].
  apply preserves_bind; [ apply preserves_lift | intros body ].
  apply preserves_lift.
Qed.

Lemma preserves_make_docx_bytes (df : DataFrame)
  (projeto cliente responsavel : string) (custos_extra : custos) :
  preserves_world (make_docx_bytes df projeto cliente responsavel custos_extra).
Proof.
  unfold make_docx_bytes.
  apply preserves_bind; [ apply preserves_lift | intros h ].
  apply preserves_bind; [ apply preserves_lift | intros p1 ].
  apply preserves_bind; [ apply preserves_lift | intros p2 ].
  apply preserves_bind; [ apply preserves_datetime_now | intros agora ].
  apply preserves_bind; [ apply preserves_lift | intros p3 ].
  apply preserves_bind; [ apply preserves_lift | intros p4 ].
  apply preserves_bind; [ apply preserves_lift | intros body ].
  apply preserves_lift.
Qed.

Lemma preserves_resumo_totais (mao_obra impostos : float) :
  preserves_world (resumo_totais mao_obra impostos).
Proof.
  unfold resumo_totais.
  apply preserves_bind; [ apply preserves_df_resumo | intros df ].
  destruct (negb (df_empty df)); [ | apply preserves_ret ].
  apply preserves_bind; [ apply preserves_lift | intros tt' ].
  apply preserves_ret.
Qed.

Lemma preserves_resumo_section (projeto cliente responsavel : string)
  (mao_obra impostos : float) :
  preserves_world (resumo_section projeto cliente responsavel mao_obra impostos).
Proof.
  unfold resumo_section.
  apply preserves_bind; [ apply preserves_resumo_totais | intros res ].
  destruct res as [ [ [df total] total_final] | ]; [ | apply preserves_ret ].
  apply preserves_bind; [ apply preserves_lift | intros xlsx ].
  apply preserves_bind; [ apply preserves_make_pdf_bytes | intros pdf ].
  apply preserves_bind; [ apply preserves_lift | intros csv ].
  apply preserves_bind; [ apply preserves_make_docx_bytes | intros docx ].
  apply preserves_ret.
Qed.

(** ** Exporters: what each hands to its library *)

Lemma make_excel_bytes_run (df : DataFrame) (w : world) :
  make_excel_bytes df w
  = (let? b := xlsx_write "Orçamento" df in Ok (b, w))%result.
Proof. apply lift_run. Qed.

Lemma make_csv_bytes_run (df : DataFrame) (w : world) :
  make_csv_bytes df w
  = (let? s := to_csv ";" df in Ok (encode_utf8 s, w))%result.
Proof.
  unfold make_csv_bytes. rewrite lift_run.
  destruct (to_csv ";" df); reflexivity.
Qed.

Lemma rl_Paragraph_ok (text style : string) (p : flowable) :
  rl_Paragraph text style = Ok p ->
  markup_ok text = true /\ p = Paragraph text style.
Proof.
  unfold rl_Paragraph. destruct (markup_ok text); [ | discriminate ].
  intros H. injection H as <-. split; reflexivity.
Qed.

Lemma docx_text_ok (s s' : string) : docx_text s = Ok s' -> s' = s.
Proof.
  unfold docx_text. destruct s as [ | c s ].
  - intros H. now injection H as <-.
  - destruct (xml_ok (String c s)); [ | discriminate ].
    intros H. now injection H as <-.
Qed.

Lemma add_paragraph_ok (text : string) (p : docx_block) :
  add_paragraph text = Ok p -> p = DocParagraph text.
Proof.
  unfold add_paragraph. intros H. apply rbind_ok in H.
  destruct H as [s [Hs H] ]. injection H as <-.
  now rewrite (docx_text_ok text s Hs).
Qed.

Lemma add_heading_ok (text : string) (level : Z) (p : docx_block) :
  add_heading text level = Ok p -> p = Heading text level.
Proof.
  unfold add_heading. intros H. apply rbind_ok in H.
  destruct H as [s [Hs H] ]. injection H as <-.
  now rewrite (docx_text_ok text s Hs).
Qed.

Lemma make_pdf_bytes_run (df : DataFrame) (projeto cliente responsavel : string)
  (custos_extra : custos) (w : world) :
  make_pdf_bytes df projeto cliente responsavel custos_extra w
  = (let? titulo :=
       rl_Paragraph ("Orçamento de Materiais — " ++ projeto)%string "Title" in
     let? meta :=
       rl_Paragraph ("Cliente: " ++ str_or cliente "-"
                       ++ " | Responsável: " ++ str_or responsavel "-"
                       ++ " | Data: " ++ strftime_dmY_HM (clock w))%string
         "Normal" in
     let? body := pdf_body df custos_extra in
     let? b :=
       pdf_build a4_template (titulo :: meta :: Spacer 1 12 :: body) in
     Ok (b, w))%result.
Proof.
  unfold make_pdf_bytes, bind, datetime_now. rewrite !lift_run.
  destruct (rl_Paragraph _ "Title") as [titulo | e]; cbn [rbind];
    [ | reflexivity ].
  rewrite !lift_run.
  destruct (rl_Paragraph _ "Normal") as [meta | e]; cbn [rbind];
    [ | reflexivity ].
  rewrite !lift_run.
  destruct (pdf_body df custos_extra) as [body | e]; cbn [rbind];
    [ | reflexivity ].
  rewrite lift_run. reflexivity.
Qed.

Lemma make_docx_bytes_run (df : DataFrame) (projeto cliente responsavel : string)
  (custos_extra : custos) (w : world) :
  make_docx_bytes df projeto cliente responsavel custos_extra w
  = (let? h := add_heading ("Orçamento de Materiais — " ++ projeto)%string 0 in
     let? p1 := add_paragraph ("Cliente: " ++ str_or cliente "-")%string in
     let? p2 :=
       add_paragraph ("Responsável: " ++ str_or responsavel "-")%string in
     let? p3 :=
       add_paragraph ("Data: " ++ strftime_dmY_HM (clock w))%string in
     let? p4 := add_paragraph "" in
     let? body := docx_body df custos_extra in
     let? b := docx_save (h :: p1 :: p2 :: p3 :: p4 :: body) in
     Ok (b, w))%result.
Proof.
  unfold make_docx_bytes, bind, datetime_now. rewrite !lift_run.
  destruct (add_heading _ 0) as [h | e]; cbn [rbind]; [ | reflexivity ].
  rewrite !lift_run.
  destruct (add_paragraph ("Cliente: " ++ _)) as [p1 | e]; cbn [rbind];
    [ | reflexivity ].
  rewrite !lift_run.
  destruct (add_paragraph ("Responsável: " ++ _)) as [p2 | e]; cbn [rbind];
    [ | reflexivity ].
  rewrite !lift_run.
  destruct (add_paragraph ("Data: " ++ _)) as [p3 | e]; cbn [rbind];
    [ | reflexivity ].
  rewrite !lift_run.
  destruct (add_paragraph "") as [p4 | e]; cbn [rbind]; [ | reflexivity ].
  rewrite !lift_run.
  destruct (docx_body df custos_extra) as [body | e]; cbn [rbind];
    [ | reflexivity ].
  rewrite lift_run. reflexivity.
Qed.

Lemma pdf_body_empty (df : DataFrame) (custos_extra : custos) :
  df_empty df = true -> pdf_body df custos_extra = Ok [].
Proof. intros H. unfold pdf_body. now rewrite H. Qed.

Lemma docx_body_empty (df : DataFrame) (custos_extra : custos) :
  df_empty df = true -> docx_body df custos_extra = Ok [].
Proof. intros H. unfold docx_body. now rewrite H. Qed.

(** When the PDF body of a non-empty table is built, it is the table, a
    spacer and the four totals. *)
Lemma pdf_body_ok (df : DataFrame) (custos_extra : custos)
  (body : list flowable) :
  df_empty df = false ->
  pdf_body df custos_extra = Ok body ->
  exists total : float,
    total_materiais df = Ok total
    /\ body
       = [ Table (columns df :: map (map py_str) (rows df)) 1
             [ BACKGROUND 0 0 (-1) 0 "lightgrey";
               GRID 0 0 (-1) (-1) 0.25%float "grey" ];
           Spacer 1 12;
           Paragraph ("<b>Materiais:</b> R$ " ++ format_2f total)%string "Normal";
           Paragraph ("<b>Mão de obra:</b> R$ "
                        ++ format_2f (custos_get custos_extra "mao_obra"))%string
             "Normal";
           Paragraph ("<b>Impostos:</b> R$ "
                        ++ format_2f (custos_get custos_extra "impostos"))%string
             "Normal";
           Paragraph ("<b>Total:</b> R$ "
                        ++ format_2f
                             (total + custos_get custos_extra "mao_obra"
                                + custos_get custos_extra "impostos")%float)%string
             "Heading3" ].
Proof.
  intros He H. unfold pdf_body in H. rewrite He in H. cbn [negb] in H.
  apply rbind_ok in H. destruct H as [total [Ht H] ].
  apply rbind_ok in H. destruct H as [p1 [H1 H] ].
  apply rbind_ok in H. destruct H as [p2 [H2 H] ].
  apply rbind_ok in H. destruct H as [p3 [H3 H] ].
  apply rbind_ok in H. destruct H as [p4 [H4 H] ].
  injection H as <-.
  apply rl_Paragraph_ok in H1, H2, H3, H4.
  destruct H1 as [_ ->], H2 as [_ ->], H3 as [_ ->], H4 as [_ ->].
  exists total. split; [ exact Ht | reflexivity ].
Qed.

(** When the word-processor body of a non-empty table is built, it is the
    table (header row, then one row of [str] cells per item) and the four
    totals. *)
Lemma docx_body_ok (df : DataFrame) (custos_extra : custos)
  (body : list docx_block) :
  df_empty df = false ->
  docx_body df custos_extra = Ok body ->
  exists total : float,
    total_materiais df = Ok total
    /\ body
       = [ DocTable (columns df :: map (map py_str) (rows df));
           DocParagraph ("Materiais: R$ " ++ format_2f total)%string;
           DocParagraph ("Mão de obra: R$ "
                           ++ format_2f (custos_get custos_extra "mao_obra"))%string;
           DocParagraph ("Impostos: R$ "
                           ++ format_2f (custos_get custos_extra "impostos"))%string;
           Heading ("Total: R$ "
                      ++ format_2f
                           (total + custos_get custos_extra "mao_obra"
                              + custos_get custos_extra "impostos")%float)%string
             1 ].
Proof.
  intros He H. unfold docx_body in H. rewrite He in H. cbn [negb] in H.
  apply rbind_ok in H. destruct H as [hdr [Hh H] ].
  apply rbind_ok in H. destruct H as [cells [Hc H] ].
  apply rbind_ok in H. destruct H as [total [Ht H] ].
  apply rbind_ok in H. destruct H as [p1 [H1 H] ].
  apply rbind_ok in H. destruct H as [p2 [H2 H] ].
  apply rbind_ok in H. destruct H as [p3 [H3 H] ].
  apply rbind_ok in H. destruct H as [h [H4 H] ].
  injection H as <-.
  apply add_paragraph_ok in H1, H2, H3. apply add_heading_ok in H4.
  subst p1 p2 p3 h.
  apply (rmap_map_ok docx_text (fun s => s)) in Hh;
    [ | intros a b; apply docx_text_ok ].
  rewrite map_id in Hh. subst hdr.
  apply (rmap_map_ok _ (map py_str)) in Hc.
  - subst cells. exists total. split; [ exact Ht | reflexivity ].
  - intros row cs Hrow.
    apply (rmap_map_ok _ py_str) in Hrow; [ exact Hrow | ].
    intros v s. apply docx_text_ok.
Qed.

(** When the PDF exporter returns, the bytes are those reportlab built
    from the title, the metadata line, a spacer and the body. *)
Lemma make_pdf_bytes_ok (df : DataFrame) (projeto cliente responsavel : string)
  (custos_extra : custos) (w w1 : world) (b : bytes) :
  make_pdf_bytes df projeto cliente responsavel custos_extra w = Ok (b, w1) ->
  w1 = w
  /\ exists body : list flowable,
       pdf_body df custos_extra = Ok body
       /\ pdf_build a4_template
            (Paragraph ("Orçamento de Materiais — " ++ projeto)%string "Title"
             :: Paragraph
                  ("Cliente: " ++ str_or cliente "-"
                     ++ " | Responsável: " ++ str_or responsavel "-"
                     ++ " | Data: " ++ strftime_dmY_HM (clock w))%string
                  "Normal"
             :: Spacer 1 12 :: body)
          = Ok b.
Proof.
  rewrite make_pdf_bytes_run. intros H.
  apply rbind_ok in H. destruct H as [titulo [H1 H] ].
  apply rbind_ok in H. destruct H as [meta [H2 H] ].
  apply rbind_ok in H. destruct H as [body [Hb H] ].
  apply rbind_ok in H. destruct H as [b0 [Hbuild H] ].
  injection H as <- <-.
  apply rl_Paragraph_ok in H1, H2. destruct H1 as [_ ->], H2 as [_ ->].
  split; [ reflexivity | ]. exists body. split; [ exact Hb | exact Hbuild ].
Qed.

(** When the word-processor exporter returns, the bytes are those
    python-docx saved for the heading, the four paragraphs and the body. *)
Lemma make_docx_bytes_ok (df : DataFrame) (projeto cliente responsavel : string)
  (custos_extra : custos) (w w1 : world) (b : bytes) :
  make_docx_bytes df projeto cliente responsavel custos_extra w = Ok (b, w1) ->
  w1 = w
  /\ exists body : list docx_block,
       docx_body df custos_extra = Ok body
       /\ docx_save
            (Heading ("Orçamento de Materiais — " ++ projeto)%string 0
             :: DocParagraph ("Cliente: " ++ str_or cliente "-")%string
             :: DocParagraph ("Responsável: " ++ str_or responsavel "-")%string
             :: DocParagraph ("Data: " ++ strftime_dmY_HM (clock w))%string
             :: DocParagraph "" :: body)
          = Ok b.
Proof.
  rewrite make_docx_bytes_run. intros H.
  apply rbind_ok in H. destruct H as [h [H0 H] ].
  apply rbind_ok in H. destruct H as [p1 [H1 H] ].
  apply rbind_ok in H. destruct H as [p2 [H2 H] ].
  apply rbind_ok in H. destruct H as [p3 [H3 H] ].
  apply rbind_ok in H. destruct H as [p4 [H4 H] ].
  apply rbind_ok in H. destruct H as [body [Hb H] ].
  apply rbind_ok in H. destruct H as [b0 [Hsave H] ].
  injection H as <- <-.
  apply add_heading_ok in H0. apply add_paragraph_ok in H1, H2, H3, H4.
  subst h p1 p2 p3 p4.
  split; [ reflexivity | ]. exists body. split; [ exact Hb | exact Hsave ].
Qed.

(** ** C4: totals of the summary section *)

(** The table and the totals of a ledger with items. *)
Lemma resumo_totais_ledger (r : dict) (data : list dict) (xs : list float)
  (mao_obra impostos : float) (t : datetime) :
  subtotals (r :: data) = Some xs ->
  resumo_totais mao_obra impostos
    {| clock := t; session_items := Some (r :: data) |}
  = Ok (Some (DataFrame_of_records (r :: data),
              ndarray_sum (map nan_to_zero xs),
              (ndarray_sum (map nan_to_zero xs) + mao_obra + impostos)%float),
        {| clock := t; session_items := Some (r :: data) |}).
Proof.
  intros H.
  pose proof (total_materiais_ledger r data xs H) as Ht.
  pose proof (df_of_ledger_not_empty r data xs H) as He.
  unfold resumo_totais, bind at 1.
  unfold df_resumo, bind at 1, session_state_get_items, ret at 1.
  cbn [session_items]. rewrite He. cbn [negb].
  unfold bind, lift, totais. rewrite Ht. reflexivity.
Qed.

(** When the summary section returns, it has either shown the notice
    alone (nothing to total) or the table, the two totals and the four
    downloads, each download being what its exporter returned. *)
Lemma resumo_section_ok (projeto cliente responsavel : string)
  (mao_obra impostos : float) (w w1 : world) (page : list widget) :
  resumo_section projeto cliente responsavel mao_obra impostos w
  = Ok (page, w1) ->
  w1 = w
  /\ exists res : option (DataFrame * float * float),
       resumo_totais mao_obra impostos w = Ok (res, w)
       /\ match res with
          | None =>
              page = [ Subheader "Resumo dos Itens";
                       Info "Nenhum item adicionado ainda." ]
          | Some (df, total, total_final) =>
              exists xlsx pdf csv docx : bytes,
                make_excel_bytes df w = Ok (xlsx, w)
                /\ make_pdf_bytes df projeto cliente responsavel
                     [("mao_obra", mao_obra); ("impostos", impostos)]%string w
                   = Ok (pdf, w)
                /\ make_csv_bytes df w = Ok (csv, w)
                /\ make_docx_bytes df projeto cliente responsavel
                     [("mao_obra", mao_obra); ("impostos", impostos)]%string w
                   = Ok (docx, w)
                /\ page
                   = [ Subheader "Resumo dos Itens";
                       Dataframe df;
                       Subheader "Custos Extras";
                       Write ("**Total Materiais:** R$ "
                                ++ format_2f total)%string;
                       Write
                         ("**Total Final (com mão de obra e impostos):** R$ "
                            ++ format_2f total_final)%string;
                       Subheader "Exportar Orçamento";
                       DownloadButton "📊 Baixar Excel" xlsx "orcamento.xlsx";
                       DownloadButton "📄 Baixar PDF" pdf "orcamento.pdf";
                       DownloadButton "📝 Baixar CSV" csv "orcamento.csv";
                       DownloadButton "📑 Baixar DOCX" docx "orcamento.docx" ]
          end.
Proof.
  intros H.
  pose proof (preserves_ok _ _ _ _
                (preserves_resumo_section projeto cliente responsavel
                   mao_obra impostos) H) as ->.
  split; [ reflexivity | ].
  unfold resumo_section in H.
  apply bind_ok in H. destruct H as [res [w0 [Hres H] ] ].
  pose proof (preserves_ok _ _ _ _
                (preserves_resumo_totais mao_obra impostos) Hres) as ->.
  exists res. split; [ exact Hres | ].
  destruct res as [ [ [df total] total_final] | ].
  - apply bind_ok in H. destruct H as [xlsx [w2 [Hx H] ] ].
    pose proof (preserves_ok _ _ _ _ (preserves_lift _) Hx) as ->.
    apply bind_ok in H. destruct H as [pdf [w2 [Hp H] ] ].
    pose proof (preserves_ok _ _ _ _
                  (preserves_make_pdf_bytes _ _ _ _ _) Hp) as ->.
    apply bind_ok in H. destruct H as [csv [w2 [Hc H] ] ].
    pose proof (preserves_ok _ _ _ _ (preserves_lift _) Hc) as ->.
    apply bind_ok in H. destruct H as [docx [w2 [Hd H] ] ].
    pose proof (preserves_ok _ _ _ _
                  (preserves_make_docx_bytes _ _ _ _ _) Hd) as ->.
    unfold ret in H. injection H as <-.
    exists xlsx, pdf, csv, docx. repeat (split; [ assumption | ]).
    reflexivity.
  - unfold ret in H. now injection H as <-.
Qed.

Lemma df_resumo_run (t : datetime) (l : list dict) :
  df_resumo {| clock := t; session_items := Some l |}
  = Ok (match l with
        | [] => DataFrame_new
        | _ :: _ => DataFrame_of_records l
        end, {| clock := t; session_items := Some l |}).
Proof. reflexivity. Qed.

(** When the totals step returns, it has built the table of the ledger;
    it returns totals exactly for a non-empty table, the materials total
    being the sum of the Subtotal column. *)
Lemma resumo_totais_ok (mao_obra impostos : float) (w w1 : world)
  (res : option (DataFrame * float * float)) :
  resumo_totais mao_obra impostos w = Ok (res, w1) ->
  exists df : DataFrame,
    df_resumo w = Ok (df, w)
    /\ match res with
       | None => df_empty df = true
       | Some (df', total, total_final) =>
           df' = df
           /\ df_empty df = false
           /\ total_materiais df = Ok total
           /\ total_final = (total + mao_obra + impostos)%float
       end.
Proof.
  unfold resumo_totais. intros H.
  apply bind_ok in H. destruct H as [df [w0 [Hdf H] ] ].
  pose proof (preserves_ok _ _ _ _ preserves_df_resumo Hdf) as ->.
  exists df. split; [ exact Hdf | ].
  destruct (df_empty df) eqn:He; cbn [negb] in H.
  - unfold ret in H. now injection H as <- _.
  - apply bind_ok in H. destruct H as [tt' [w2 [Ht H] ] ].
    apply lift_ok in Ht. destruct Ht as [Ht ->].
    unfold ret in H. injection H as <- _.
    unfold totais in Ht. apply rbind_ok in Ht.
    destruct Ht as [total [Ht Hp] ]. injection Hp as <-.
    cbn [fst snd]. repeat split. exact Ht.
Qed.

(** C4 (as amended). For every ledger with at least one item, each item
    with a float [Subtotal], and every labor cost and taxes: the summary
    computes the materials total as the sum pandas makes of the Subtotal
    column, which lists the subtotals of the items in order (a NaN entry
    counting as 0): a floating-point sum of these numbers; the grand total
    is the materials total plus labor plus taxes; and a page that is drawn
    to its end shows both, printed with two decimals. With an empty ledger
    the summary computes no totals at all. *)
Theorem resumo_totals (data : list dict) (xs : list float)
  (projeto cliente responsavel : string) (mao_obra impostos : float)
  (t : datetime) :
  (forall ys : list float, float_sum_of ys (ndarray_sum ys)) ->
  data <> [] ->
  subtotals data = Some xs ->
  exists (df : DataFrame) (total : float),
    resumo_totais mao_obra impostos {| clock := t; session_items := Some data |}
    = Ok (Some (df, total, (total + mao_obra + impostos)%float),
          {| clock := t; session_items := Some data |})
    /\ rows df = map (record_row (columns df)) data
    /\ df_column df "Subtotal" = Ok (map PFloat xs)
    /\ total = ndarray_sum (map nan_to_zero xs)
    /\ float_sum_of (map nan_to_zero xs) total
    /\ (forall (page : list widget) (w1 : world),
          resumo_section projeto cliente responsavel mao_obra impostos
            {| clock := t; session_items := Some data |}
          = Ok (page, w1) ->
          nth_error page 3
          = Some (Write ("**Total Materiais:** R$ " ++ format_2f total)%string)
          /\ nth_error page 4
             = Some (Write
                       ("**Total Final (com mão de obra e impostos):** R$ "
                          ++ format_2f (total + mao_obra + impostos)%float)%string))
    /\ resumo_totais mao_obra impostos
         {| clock := t; session_items := Some [] |}
       = Ok (None, {| clock := t; session_items := Some [] |}).
Proof.
  intros Hsum Hne H. destruct data as [ | r data ]; [ now destruct Hne | ].
  pose proof (resumo_totais_ledger r data xs mao_obra impostos t H) as Hrun.
  exists (DataFrame_of_records (r :: data)), (ndarray_sum (map nan_to_zero xs)).
  split; [ exact Hrun | ].
  split; [ reflexivity | ].
  split; [ now apply df_column_subtotal | ].
  split; [ reflexivity | ].
  split; [ apply Hsum | ].
  split; [ | reflexivity ].
  intros page w1 Hpage.
  apply resumo_section_ok in Hpage.
  destruct Hpage as [_ [res [Hres Hpage] ] ].
  rewrite Hrun in Hres. injection Hres as <-.
  destruct Hpage as [xlsx [pdf [csv [docx [_ [_ [_ [_ ->] ] ] ] ] ] ] ].
  split; reflexivity.
Qed.

(** ** C5: what the four exporters render *)

Lemma all_digits_app (s1 s2 : string) :
  all_digits (s1 ++ s2) = all_digits s1 && all_digits s2.
Proof.
  induction s1 as [ | c s1 IH]; cbn; [ reflexivity | ].
  now rewrite IH, andb_assoc.
Qed.

Lemma string_of_uint_digits (u : Decimal.uint) :
  all_digits (NilEmpty.string_of_uint u) = true.
Proof. induction u; cbn; auto. Qed.

Lemma dec_digits (z : Z) : all_digits (dec z) = true.
Proof.
  unfold dec, NilZero.string_of_uint.
  destruct (N.to_uint (Z.to_N z)) eqn:E; try reflexivity;
    rewrite <- E; apply string_of_uint_digits.
Qed.

Lemma dec_length_pos (z : Z) : (1 <= String.length (dec z))%nat.
Proof.
  unfold dec, NilZero.string_of_uint.
  destruct (N.to_uint (Z.to_N z)); cbn; lia.
Qed.

Lemma dec_one_digit (d : Z) : 0 <= d < 10 -> String.length (dec d) = 1%nat.
Proof.
  intros H.
  assert (E : d = 0 \/ d = 1 \/ d = 2 \/ d = 3 \/ d = 4 \/ d = 5 \/ d = 6
              \/ d = 7 \/ d = 8 \/ d = 9) by lia.
  repeat (destruct E as [-> | E]; [ reflexivity | ]). now subst.
Qed.

Lemma length_append (s1 s2 : string) :
  String.length (s1 ++ s2) = (String.length s1 + String.length s2)%nat.
Proof. induction s1 as [ | c s1 IH]; cbn; [ reflexivity | now rewrite IH ]. Qed.

(** A finite amount is printed with exactly two decimals. *)
Lemma format_2f_two_decimals (x : float) :
  is_finite x = true -> two_decimals (format_2f x).
Proof.
  intros F. destruct (is_finite_inv x F) as [Hnan Hinf].
  unfold format_2f, two_decimals.
  destruct (Prim2SF x) as [ s | s | | s m e ].
  - exists s, "0"%string, "00"%string. destruct s; repeat split; cbn; lia.
  - now destruct (Hinf s).
  - now destruct Hnan.
  - cbn [SF_format_2f]. set (n := scaled_digits 2 m e).
    exists s, (dec (n / 100)), (dec (n mod 100 / 10) ++ dec (n mod 10))%string.
    split; [ reflexivity | ].
    split; [ apply dec_digits | ].
    split; [ apply dec_length_pos | ].
    split; [ now rewrite all_digits_app, !dec_digits | ].
    rewrite length_append, !dec_one_digit; [ reflexivity | | ].
    + apply Z.mod_pos_bound. lia.
    + pose proof (Z.mod_pos_bound n 100 ltac:(lia)) as Hb.
      split; [ apply Z.div_pos; lia | apply Z.div_lt_upper_bound; lia ].
Qed.

(** C5 (as amended). For a non-empty table, whenever the PDF exporter or
    the word-processor exporter returns, the document it handed to its
    library is made of a title with the project name, the client, the
    responsible and the time stamp, then the full table (header row and
    one row per item), then the four totals (materials, labor, taxes, grand
    total), the materials total being the sum of the Subtotal column and
    each amount being printed by the [.2f] format, which gives exactly two
    decimals for a finite amount. The spreadsheet and the CSV exporters
    hand only the table to their writers: no title, metadata or totals. *)
Theorem exporters_content (df : DataFrame)
  (projeto cliente responsavel : string) (custos_extra : custos) (w : world) :
  df_empty df = false ->
  (forall (b : bytes) (w1 : world),
     make_pdf_bytes df projeto cliente responsavel custos_extra w = Ok (b, w1) ->
     exists total : float,
       total_materiais df = Ok total
       /\ pdf_build a4_template
            [ Paragraph ("Orçamento de Materiais — " ++ projeto)%string "Title";
              Paragraph ("Cliente: " ++ str_or cliente "-"
                           ++ " | Responsável: " ++ str_or responsavel "-"
                           ++ " | Data: " ++ strftime_dmY_HM (clock w))%string
                "Normal";
              Spacer 1 12;
              Table (columns df :: map (map py_str) (rows df)) 1
                [ BACKGROUND 0 0 (-1) 0 "lightgrey";
                  GRID 0 0 (-1) (-1) 0.25%float "grey" ];
              Spacer 1 12;
              Paragraph ("<b>Materiais:</b> R$ " ++ format_2f total)%string
                "Normal";
              Paragraph ("<b>Mão de obra:</b> R$ "
                           ++ format_2f (custos_get custos_extra "mao_obra"))%string
                "Normal";
              Paragraph ("<b>Impostos:</b> R$ "
                           ++ format_2f (custos_get custos_extra "impostos"))%string
                "Normal";
              Paragraph ("<b>Total:</b> R$ "
                           ++ format_2f
                                (total + custos_get custos_extra "mao_obra"
                                   + custos_get custos_extra "impostos")%float)%string
                "Heading3" ]
          = Ok b)
  /\ (forall (b : bytes) (w1 : world),
        make_docx_bytes df projeto cliente responsavel custos_extra w
        = Ok (b, w1) ->
        exists total : float,
          total_materiais df = Ok total
          /\ docx_save
               [ Heading ("Orçamento de Materiais — " ++ projeto)%string 0;
                 DocParagraph ("Cliente: " ++ str_or cliente "-")%string;
                 DocParagraph ("Responsável: " ++ str_or responsavel "-")%string;
                 DocParagraph ("Data: " ++ strftime_dmY_HM (clock w))%string;
                 DocParagraph "";
                 DocTable (columns df :: map (map py_str) (rows df));
                 DocParagraph ("Materiais: R$ " ++ format_2f total)%string;
                 DocParagraph ("Mão de obra: R$ "
                                 ++ format_2f (custos_get custos_extra "mao_obra"))%string;
                 DocParagraph ("Impostos: R$ "
                                 ++ format_2f (custos_get custos_extra "impostos"))%string;
                 Heading ("Total: R$ "
                            ++ format_2f
                                 (total + custos_get custos_extra "mao_obra"
                                    + custos_get custos_extra "impostos")%float)%string
                   1 ]
             = Ok b)
  /\ make_excel_bytes df w
     = (let? b := xlsx_write "Orçamento" df in Ok (b, w))%result
  /\ make_csv_bytes df w
     = (let? s := to_csv ";" df in Ok (encode_utf8 s, w))%result
  /\ (forall x : float, is_finite x = true -> two_decimals (format_2f x)).
Proof.
  intros He.
  split.
  { intros b w1 H. apply make_pdf_bytes_ok in H.
    destruct H as [_ [body [Hb Hbuild] ] ].
    destruct (pdf_body_ok df custos_extra body He Hb) as [total [Ht ->] ].
    exists total. split; [ exact Ht | exact Hbuild ]. }
  split.
  { intros b w1 H. apply make_docx_bytes_ok in H.
    destruct H as [_ [body [Hb Hsave] ] ].
    destruct (docx_body_ok df custos_extra body He Hb) as [total [Ht ->] ].
    exists total. split; [ exact Ht | exact Hsave ]. }
  split; [ apply make_excel_bytes_run | ].
  split; [ apply make_csv_bytes_run | ].
  apply format_2f_two_decimals.
Qed.

(** ** C6: exporting an empty table *)

Lemma docx_text_prefix (c : ascii) (p s : string) :
  docx_text (String c p ++ s)
  = if xml_ok (String c p ++ s) then Ok (String c p ++ s)%string
    else Raise ValueError.
Proof. reflexivity. Qed.

(** C6 (as amended). Given an empty table, the PDF and the word-processor
    exporters make the title and metadata header only, with neither table
    nor totals, and the spreadsheet and the CSV exporters hand the empty
    table to their writers; each returns the bytes its library produces.
    They are not free of exceptions: the PDF exporter raises [ValueError]
    when reportlab's paragraph parser rejects the title or the metadata
    line, the word-processor exporter when python-docx rejects one of the
    four header texts, and each raises what its writer raises. *)
Theorem exporters_empty_table (df : DataFrame)
  (projeto cliente responsavel : string) (custos_extra : custos) (w : world) :
  df_empty df = true ->
  make_pdf_bytes df projeto cliente responsavel custos_extra w
  = (if markup_ok ("Orçamento de Materiais — " ++ projeto)%string
     then
       if markup_ok ("Cliente: " ++ str_or cliente "-"
                       ++ " | Responsável: " ++ str_or responsavel "-"
                       ++ " | Data: " ++ strftime_dmY_HM (clock w))%string
       then
         (let? b :=
            pdf_build a4_template
              [ Paragraph ("Orçamento de Materiais — " ++ projeto)%string
                  "Title";
                Paragraph ("Cliente: " ++ str_or cliente "-"
                             ++ " | Responsável: " ++ str_or responsavel "-"
                             ++ " | Data: " ++ strftime_dmY_HM (clock w))%string
                  "Normal";
                Spacer 1 12 ] in
          Ok (b, w))%result
       else Raise ValueError
     else Raise ValueError)
  /\ make_docx_bytes df projeto cliente responsavel custos_extra w
     = (if xml_ok ("Orçamento de Materiais — " ++ projeto)%string
           && xml_ok ("Cliente: " ++ str_or cliente "-")%string
           && xml_ok ("Responsável: " ++ str_or responsavel "-")%string
           && xml_ok ("Data: " ++ strftime_dmY_HM (clock w))%string
        then
          (let? b :=
             docx_save
               [ Heading ("Orçamento de Materiais — " ++ projeto)%string 0;
                 DocParagraph ("Cliente: " ++ str_or cliente "-")%string;
                 DocParagraph ("Responsável: " ++ str_or responsavel "-")%string;
                 DocParagraph ("Data: " ++ strftime_dmY_HM (clock w))%string;
                 DocParagraph "" ] in
           Ok (b, w))%result
        else Raise ValueError)
  /\ make_excel_bytes df w
     = (let? b := xlsx_write "Orçamento" df in Ok (b, w))%result
  /\ make_csv_bytes df w
     = (let? s := to_csv ";" df in Ok (encode_utf8 s, w))%result.
Proof.
  intros He.
  split.
  { rewrite make_pdf_bytes_run, (pdf_body_empty _ _ He). unfold rl_Paragraph.
    destruct (markup_ok ("Orçamento de Materiais — " ++ projeto)%string);
      [ | reflexivity ].
    cbn [rbind].
    destruct (markup_ok _); reflexivity. }
  split.
  { rewrite make_docx_bytes_run, (docx_body_empty _ _ He).
    unfold add_heading, add_paragraph.
    rewrite !docx_text_prefix.
    destruct (xml_ok ("Orçamento de Materiais — " ++ projeto)%string);
      [ | reflexivity ].
    destruct (xml_ok ("Cliente: " ++ str_or cliente "-")%string);
      [ | reflexivity ].
    destruct (xml_ok ("Responsável: " ++ str_or responsavel "-")%string);
      [ | reflexivity ].
    destruct (xml_ok ("Data: " ++ strftime_dmY_HM (clock w))%string);
      reflexivity. }
  split; [ apply make_excel_bytes_run | apply make_csv_bytes_run ].
Qed.

(** ** C10: the CSV export depends on the table only *)

Lemma append_inj_l (p s1 s2 : string) :
  (p ++ s1)%string = (p ++ s2)%string -> s1 = s2.
Proof.
  induction p as [ | c p IH]; cbn; intros H; [ exact H | ].
  injection H as H. now apply IH.
Qed.

(** Cancels a common literal or appended prefix of a string equation. *)
Ltac strip_prefix H :=
  match type of H with
  | String _ _ = String _ _ => injection H as H
  | (?p ++ _)%string = (?p ++ _)%string => apply append_inj_l in H
  end.

Lemma pdf_meta_time_inj (cliente responsavel : string) (t1 t2 : datetime) :
  ("Cliente: " ++ str_or cliente "-"
     ++ " | Responsável: " ++ str_or responsavel "-"
     ++ " | Data: " ++ strftime_dmY_HM t1)%string
  = ("Cliente: " ++ str_or cliente "-"
       ++ " | Responsável: " ++ str_or responsavel "-"
       ++ " | Data: " ++ strftime_dmY_HM t2)%string ->
  strftime_dmY_HM t1 = strftime_dmY_HM t2.
Proof. intros H. repeat strip_prefix H. exact H. Qed.

Lemma docx_data_time_inj (t1 t2 : datetime) :
  ("Data: " ++ strftime_dmY_HM t1)%string
  = ("Data: " ++ strftime_dmY_HM t2)%string ->
  strftime_dmY_HM t1 = strftime_dmY_HM t2.
Proof. intros H. repeat strip_prefix H. exact H. Qed.

(** C10. [make_csv_bytes] reads neither the clock nor the session: run on
    the same table in any two worlds it returns the same bytes, the
    encoding of what the CSV writer makes of the table, or raises the same
    exception, and it leaves the world as it is. The PDF and the
    word-processor exporters instead read the clock: whenever one of them
    returns, the document it handed to its library carries the time stamp
    of the run, and two clock readings with different time stamps give
    different texts. On the page, two runs of the summary section on the
    same ledger that are drawn to their end offer the same CSV download,
    the encoding of the CSV text of the table shown, whatever the project,
    the client, the responsible, the extra costs and the clock of each
    run. *)
Theorem csv_export_deterministic (df : DataFrame)
  (projeto cliente responsavel : string) (custos_extra : custos)
  (w1 w2 : world) :
  make_csv_bytes df w1
  = (let? s := to_csv ";" df in Ok (encode_utf8 s, w1))%result
  /\ make_csv_bytes df w2
     = (let? s := to_csv ";" df in Ok (encode_utf8 s, w2))%result
  /\ (forall (b1 b2 : bytes) (w1' w2' : world),
        make_csv_bytes df w1 = Ok (b1, w1') ->
        make_csv_bytes df w2 = Ok (b2, w2') ->
        b1 = b2 /\ w1' = w1 /\ w2' = w2)
  /\ (forall e : exn,
        make_csv_bytes df w1 = Raise e -> make_csv_bytes df w2 = Raise e)
  /\ (forall (b : bytes) (w1' : world),
        make_pdf_bytes df projeto cliente responsavel custos_extra w1
        = Ok (b, w1') ->
        exists body : list flowable,
          pdf_build a4_template
            (Paragraph ("Orçamento de Materiais — " ++ projeto)%string "Title"
             :: Paragraph
                  ("Cliente: " ++ str_or cliente "-"
                     ++ " | Responsável: " ++ str_or responsavel "-"
                     ++ " | Data: " ++ strftime_dmY_HM (clock w1))%string
                  "Normal"
             :: Spacer 1 12 :: body)
          = Ok b)
  /\ (forall (b : bytes) (w1' : world),
        make_docx_bytes df projeto cliente responsavel custos_extra w1
        = Ok (b, w1') ->
        exists body : list docx_block,
          docx_save
            (Heading ("Orçamento de Materiais — " ++ projeto)%string 0
             :: DocParagraph ("Cliente: " ++ str_or cliente "-")%string
             :: DocParagraph ("Responsável: " ++ str_or responsavel "-")%string
             :: DocParagraph ("Data: " ++ strftime_dmY_HM (clock w1))%string
             :: DocParagraph "" :: body)
          = Ok b)
  /\ (forall (p1 c1 r1 p2 c2 r2 : string) (m1 i1 m2 i2 : float)
             (page1 page2 : list widget) (w1' w2' : world),
        session_items w1 = session_items w2 ->
        resumo_section p1 c1 r1 m1 i1 w1 = Ok (page1, w1') ->
        resumo_section p2 c2 r2 m2 i2 w2 = Ok (page2, w2') ->
        nth_error page1 8 = nth_error page2 8
        /\ (forall d : DataFrame,
              nth_error page1 1 = Some (Dataframe d) ->
              exists s : string,
                to_csv ";" d = Ok s
                /\ nth_error page1 8
                   = Some (DownloadButton "📝 Baixar CSV" (encode_utf8 s)
                             "orcamento.csv")))
  /\ (strftime_dmY_HM (clock w1) <> strftime_dmY_HM (clock w2) ->
      ("Cliente: " ++ str_or cliente "-"
         ++ " | Responsável: " ++ str_or responsavel "-"
         ++ " | Data: " ++ strftime_dmY_HM (clock w1))%string
      <> ("Cliente: " ++ str_or cliente "-"
            ++ " | Responsável: " ++ str_or responsavel "-"
            ++ " | Data: " ++ strftime_dmY_HM (clock w2))%string
      /\ ("Data: " ++ strftime_dmY_HM (clock w1))%string
         <> ("Data: " ++ strftime_dmY_HM (clock w2))%string)
  /\ strftime_dmY_HM sample_time <> strftime_dmY_HM later_time.
Proof.
  split; [ apply make_csv_bytes_run | ].
  split; [ apply make_csv_bytes_run | ].
  split.
  { intros b1 b2 w1' w2'. rewrite !make_csv_bytes_run.
    destruct (to_csv ";" df) as [s | e]; cbn [rbind]; [ | discriminate ].
    intros H1 H2. injection H1 as <- <-. injection H2 as <- <-.
    repeat split. }
  split.
  { intros e. rewrite !make_csv_bytes_run.
    destruct (to_csv ";" df) as [s | e0]; cbn [rbind]; [ discriminate | ].
    intros H. exact H. }
  split.
  { intros b w1' H. apply make_pdf_bytes_ok in H.
    destruct H as [_ [body [_ Hbuild] ] ]. now exists body. }
  split.
  { intros b w1' H. apply make_docx_bytes_ok in H.
    destruct H as [_ [body [_ Hsave] ] ]. now exists body. }
  split.
  { intros p1 c1 r1 p2 c2 r2 m1 i1 m2 i2 page1 page2 w1' w2' Hs H1 H2.
    apply resumo_section_ok in H1, H2.
    destruct H1 as [_ [res1 [Hres1 Hp1] ] ], H2 as [_ [res2 [Hres2 Hp2] ] ].
    apply resumo_totais_ok in Hres1, Hres2.
    destruct Hres1 as [df1 [Hdf1 Hres1] ], Hres2 as [df2 [Hdf2 Hres2] ].
    assert (Edf : df1 = df2).
    { destruct w1 as [t1 s1], w2 as [t2 s2]. cbn [session_items] in Hs.
      subst s2. unfold df_resumo, bind, session_state_get_items, ret in Hdf1, Hdf2.
      cbn [session_items] in Hdf1, Hdf2.
      destruct s1 as [l | ]; injection Hdf1 as <-; injection Hdf2 as <-;
        reflexivity. }
    subst df2.
    destruct res1 as [ [ [d1 t1] tf1] | ], res2 as [ [ [d2 t2] tf2] | ].
    - destruct Hres1 as [-> _], Hres2 as [-> _].
      destruct Hp1 as [x1 [pd1 [cs1 [dx1 [_ [_ [Hc1 [_ ->] ] ] ] ] ] ] ].
      destruct Hp2 as [x2 [pd2 [cs2 [dx2 [_ [_ [Hc2 [_ ->] ] ] ] ] ] ] ].
      rewrite make_csv_bytes_run in Hc1, Hc2.
      apply rbind_ok in Hc1, Hc2.
      destruct Hc1 as [s1 [Hs1 E1] ], Hc2 as [s2 [Hs2 E2] ].
      injection E1 as <-. injection E2 as <-.
      rewrite Hs1 in Hs2. injection Hs2 as <-.
      split; [ reflexivity | ].
      intros d Hd. cbn [nth_error] in Hd. injection Hd as <-.
      exists s1. split; [ exact Hs1 | reflexivity ].
    - destruct Hres1 as [_ [He1 _] ]. rewrite He1 in Hres2. discriminate Hres2.
    - destruct Hres2 as [_ [He2 _] ]. rewrite He2 in Hres1. discriminate Hres1.
    - subst page1 page2. split; [ reflexivity | ].
      intros d Hd. discriminate Hd. }
  split; [ | discriminate ].
  intros Hne. split; intros H; apply Hne.
  - now apply (pdf_meta_time_inj cliente responsavel).
  - now apply docx_data_time_inj.
Qed.


(** ** Runs of the model on sample inputs *)

(** Without the condition on the extra fields the stored subtotal can be
    anything: an extra field named [Subtotal] is stored as given. *)
Example add_item_extra_negative_subtotal :
  add_item "Janelas" 1 1 "un" 0 10 [("Subtotal"%string, PFloat (-5))]
    {| clock := sample_time; session_items := Some [] |}
  = Ok (tt,
        {| clock := sample_time;
           session_items :=
             Some [ fixed_fields "Janelas" 1 1 "un" 0 1 10 (-5) ] |}).
Proof. vm_compute. reflexivity. Qed.

(** The rounding and formatting model on values whose Python results are
    well known: [round(2.675, 2) == 2.67] (the float below 2.675),
    [round(0.125, 2) == 0.12] and [round(2.5, 0) == 2.0] (ties to even),
    [round(-0.0001, 3) == -0.0]. *)
Example py_round_samples :
  py_round 2.675 2 = 2.67%float
  /\ py_round 0.125 2 = 0.12%float
  /\ py_round 0.375 2 = 0.38%float
  /\ py_round 2.5 0 = 2%float
  /\ py_round 1e300 3 = 1e300%float
  /\ py_round (-0.0001) 3 = (-0)%float
  /\ py_round infinity 3 = infinity.
Proof. repeat split; vm_compute; reflexivity. Qed.

Example format_2f_samples :
  format_2f 66 = "66.00"%string
  /\ format_2f 2.675 = "2.67"%string
  /\ format_2f 0.125 = "0.12"%string
  /\ format_2f 1234.5678 = "1234.57"%string
  /\ format_2f (-0.001) = "-0.00"%string
  /\ format_2f infinity = "inf"%string
  /\ format_2f nan = "nan"%string.
Proof. repeat split; vm_compute; reflexivity. Qed.

Example calc_qtd_necessaria_samples :
  calc_qtd_necessaria 10 2 0 = Ok 5%float
  /\ calc_qtd_necessaria 10 2 10 = Ok 5.5%float
  /\ calc_qtd_necessaria 10 0 10 = Ok 0%float
  /\ calc_qtd_necessaria 10 (-0) 10 = Ok 0%float
  /\ calc_qtd_necessaria 10 (-3) 10 = Ok 0%float.
Proof. repeat split; vm_compute; reflexivity. Qed.

Example strftime_sample :
  strftime_dmY_HM sample_time = "07/03/2024 09:05"%string.
Proof. reflexivity. Qed.

(** Columns follow the order of first appearance; a key a row lacks is NaN. *)
Example DataFrame_of_records_sample :
  DataFrame_of_records
    [ [("Material", PStr "Cola"); ("Tipo", PStr "PVC")];
      [("Material", PStr "Brita"); ("Tipo de brita", PStr "1")] ]%string
  = {| columns := [ "Material"; "Tipo"; "Tipo de brita" ]%string;
       rows := [ [PStr "Cola"; PStr "PVC"; PFloat nan];
                 [PStr "Brita"; PFloat nan; PStr "1"] ] |}.
Proof. reflexivity. Qed.

(** Windows, with their two material-specific fields, added after the
    cement: 3 windows at 5 % waste are 3.15, at 250 each 787.50. *)
Lemma add_item_stores_witness :
  dict_wf (especificacoes_of "Janelas" sample_extras) = true
  /\ disjoint_from_fixed (especificacoes_of "Janelas" sample_extras) = true
  /\ exists item : dict,
       add_item "Janelas" 3 1 "un" 5 250
         (especificacoes_of "Janelas" sample_extras)
         {| clock := sample_time; session_items := Some [cimento_item] |}
       = Ok (tt,
             {| clock := sample_time;
                session_items := Some ([cimento_item] ++ [item]) |})
       /\ dict_get item "Qtd Necessária" = Some (PFloat 3.15)
       /\ dict_get item "Subtotal" = Some (PFloat 787.5)
       /\ dict_get item "Preço Unitário" = Some (PFloat 250)
       /\ dict_get item "Altura (m)" = Some (PFloat 1.2)
       /\ dict_keys item
          = (fixed_columns
               ++ [ "Altura (m)"%string; "Largura (m)"%string ])%list.
Proof.
  assert (Hwf : dict_wf (especificacoes_of "Janelas" sample_extras) = true)
    by reflexivity.
  assert (Hdis : disjoint_from_fixed (especificacoes_of "Janelas" sample_extras)
                 = true) by reflexivity.
  split; [ exact Hwf | ].
  split; [ exact Hdis | ].
  destruct (add_item_stores "Janelas" 3 1 "un" 5 250
              (especificacoes_of "Janelas" sample_extras) sample_time
              [cimento_item] Hwf Hdis)
    as (q & qtd & subtotal & item & Hq & Hqtd & Hsub & Hrun & Hgq & Hgs
        & _ & _ & _ & _ & _ & Hgp & _ & Hex & Hkeys).
  exists item.
  assert (Eq : qtd = 3.15%float).
  { rewrite Hqtd. vm_compute in Hq. injection Hq as <-.
    vm_compute. reflexivity. }
  assert (Es : subtotal = 787.5%float).
  { rewrite Hsub, Eq. vm_compute. reflexivity. }
  rewrite Eq in Hgq. rewrite Es in Hgs.
  split; [ exact Hrun | ].
  split; [ exact Hgq | ].
  split; [ exact Hgs | ].
  split; [ exact Hgp | ].
  split; [ apply Hex; reflexivity | exact Hkeys ].
Defined.

(** An extra field named [Subtotal] replaces the computed subtotal. *)
Lemma add_item_extra_overrides_witness :
  dict_wf [("Subtotal"%string, PStr "cortesia")] = true
  /\ exists item : dict,
       add_item "Tinta" 40 10 "lata" 5 80 [("Subtotal"%string, PStr "cortesia")]
         {| clock := sample_time; session_items := Some [] |}
       = Ok (tt, {| clock := sample_time; session_items := Some ([] ++ [item]) |})
       /\ dict_get item "Subtotal" = Some (PStr "cortesia").
Proof.
  split; [ reflexivity | ].
  assert (Hwf : dict_wf [("Subtotal"%string, PStr "cortesia")] = true)
    by reflexivity.
  destruct (add_item_extra_overrides "Tinta" 40 10 "lata" 5 80
              [("Subtotal"%string, PStr "cortesia")] sample_time [] Hwf)
    as [item [Hrun [Hfixed _] ] ].
  exists item. split; [ exact Hrun | ].
  apply Hfixed; [ | reflexivity ].
  do 7 right. now left.
Defined.


(* ================================================================== *)
(** * Further properties of the script *)

(** ** The material-specific fields (lines 150-169) *)

(** X1. Whatever the material and the inputs, the extra fields the script
    builds form a dict of at most two keys, none of them a fixed column
    name: the item stored for a form is the eight fixed fields followed by
    the extra fields, so no computed field is ever overwritten. *)
Theorem especificacoes_of_valid (f : form) :
  call_valid (call_of_form f) = true
  /\ (List.length (especificacoes_of (f_material f) (f_extras f)) <= 2)%nat
  /\ item_of_call (call_of_form f)
     = fixed_fields (f_material f) (f_medida f) (f_cobertura f) (f_unidade f)
         (f_desperdicio f)
         (qtd_of (f_medida f) (f_cobertura f) (f_desperdicio f))
         (float_or (f_preco_unit f) 0)
         (py_round
            (float_or (f_preco_unit f) 0
               * qtd_of (f_medida f) (f_cobertura f) (f_desperdicio f))%float 2)
       ++ especificacoes_of (f_material f) (f_extras f).
Proof.
  assert (Hv : dict_wf (especificacoes_of (f_material f) (f_extras f)) = true
               /\ disjoint_from_fixed
                    (especificacoes_of (f_material f) (f_extras f)) = true
               /\ (List.length (especificacoes_of (f_material f) (f_extras f))
                   <= 2)%nat).
  { unfold especificacoes_of.
    repeat match goal with
           | |- context [String.eqb (f_material f) ?s] =>
               destruct (String.eqb (f_material f) s)
           end; cbn; repeat split; lia. }
  destruct Hv as [Hwf [Hdis Hlen] ].
  split; [ unfold call_valid, call_of_form; cbn [c_especificacoes];
           now rewrite Hwf, Hdis | ].
  split; [ exact Hlen | ].
  apply (item_of_call_fresh (call_of_form f)); assumption.
Qed.

(** ** Reading and exporting leave the world alone *)

(** X3. Building the table, drawing the summary section and running any of
    the four exporters never changes the session ledger (nor the clock):
    whenever one of them returns, the world is the one it started from.
    Only [add_item] and the session initialisation write to the session. *)
Theorem summary_and_exports_preserve_world (df : DataFrame)
  (projeto cliente responsavel : string) (custos_extra : custos)
  (mao_obra impostos : float) :
  preserves_world df_resumo
  /\ preserves_world (make_excel_bytes df)
  /\ preserves_world (make_pdf_bytes df projeto cliente responsavel custos_extra)
  /\ preserves_world (make_csv_bytes df)
  /\ preserves_world (make_docx_bytes df projeto cliente responsavel custos_extra)
  /\ preserves_world
       (resumo_section projeto cliente responsavel mao_obra impostos).
Proof.
  split; [ apply preserves_df_resumo | ].
  split; [ apply preserves_lift | ].
  split; [ apply preserves_make_pdf_bytes | ].
  split; [ apply preserves_lift | ].
  split; [ apply preserves_make_docx_bytes | ].
  apply preserves_resumo_section.
Qed.

(** ** Columns of the table (lines 39-54) *)

Lemma add_columns_app (cols : list string) (d1 d2 : dict) :
  add_columns cols (d1 ++ d2) = add_columns (add_columns cols d1) d2.
Proof. unfold add_columns, dict_keys. now rewrite map_app, fold_left_app. Qed.

Lemma add_columns_present (d : dict) (cols : list string) :
  (forall k, In k (dict_keys d) -> mem_string k cols = true) ->
  add_columns cols d = cols.
Proof.
  unfold add_columns. induction (dict_keys d) as [ | k ks IH];
    cbn [fold_left]; intros H; [ reflexivity | ].
  rewrite (H k) by now left. apply IH. intros k' Hk'. apply H. now right.
Qed.

Lemma add_columns_after (F : list string) (e : dict) :
  (forall k, In k (dict_keys e) -> mem_string k F = false) ->
  forall X : list string, add_columns (F ++ X) e = F ++ add_columns X e.
Proof.
  unfold add_columns. induction (dict_keys e) as [ | k ks IH];
    cbn [fold_left]; intros H X; [ reflexivity | ].
  rewrite mem_string_app, (H k) by now left. cbn [orb].
  destruct (mem_string k X).
  - apply IH. intros k' Hk'. apply H. now right.
  - rewrite <- app_assoc. apply IH. intros k' Hk'. apply H. now right.
Qed.

Lemma add_columns_item (c : call) (X : list string) :
  call_valid c = true ->
  add_columns (fixed_columns ++ X) (item_of_call c)
  = fixed_columns ++ add_columns X (c_especificacoes c).
Proof.
  unfold call_valid. rewrite andb_true_iff. intros [Hwf Hdis].
  rewrite (item_of_call_fresh c Hwf Hdis), add_columns_app.
  rewrite (add_columns_present (fixed_fields _ _ _ _ _ _ _ _)).
  - apply add_columns_after. intros k Hk.
    now apply (disjoint_from_fixed_mem (c_especificacoes c)).
  - intros k Hk. rewrite mem_string_app.
    change (dict_keys (fixed_fields _ _ _ _ _ _ _ _)) with fixed_columns in Hk.
    now rewrite (mem_string_In k fixed_columns Hk).
Qed.

Lemma union_columns_items (cs : list call) :
  forallb call_valid cs = true ->
  forall X : list string,
    fold_left add_columns (map item_of_call cs) (fixed_columns ++ X)
    = fixed_columns ++ fold_left add_columns (map c_especificacoes cs) X.
Proof.
  induction cs as [ | c cs IH]; cbn [forallb map fold_left]; intros H X;
    [ reflexivity | ].
  apply andb_true_iff in H. destruct H as [Hc Hcs].
  rewrite (add_columns_item c X Hc). now apply IH.
Qed.

(** X7. The table of a ledger built by valid calls has a stable column
    order: the eight fixed columns, in the order of the item literal, come
    first, followed by the material-specific columns in the order in which
    the calls first introduced them. *)
Theorem columns_fixed_then_extras (c : call) (cs : list call) :
  forallb call_valid (c :: cs) = true ->
  columns (DataFrame_of_records (map item_of_call (c :: cs)))
  = fixed_columns ++ union_columns (map c_especificacoes (c :: cs)).
Proof.
  cbn [forallb]. rewrite andb_true_iff. intros [Hc Hcs].
  cbn [columns DataFrame_of_records]. unfold union_columns.
  cbn [map fold_left].
  pose proof (add_columns_item c [] Hc) as H0.
  rewrite app_nil_r in H0.
  assert (Hfix : add_columns [] (item_of_call c)
                 = add_columns fixed_columns (item_of_call c)).
  { unfold call_valid in Hc. apply andb_true_iff in Hc.
    destruct Hc as [Hwf Hdis].
    rewrite (item_of_call_fresh c Hwf Hdis), !add_columns_app.
    f_equal. }
  rewrite Hfix, H0. now apply union_columns_items.
Qed.

(** ** Reading a stored field back from the table *)

Lemma distinct_snoc (l : list string) (k : string) :
  distinct l = true -> mem_string k l = false -> distinct (l ++ [k]) = true.
Proof.
  induction l as [ | a l IH]; cbn [distinct app]; intros Hd Hk; [ reflexivity | ].
  apply andb_true_iff in Hd. destruct Hd as [Ha Hd].
  unfold mem_string in Hk. cbn [existsb] in Hk.
  apply orb_false_iff in Hk. destruct Hk as [Hka Hk].
  rewrite mem_string_app, (IH Hd Hk).
  apply negb_true_iff in Ha. rewrite Ha.
  unfold mem_string at 1. cbn [existsb orb].
  now rewrite String.eqb_sym, Hka.
Qed.

Lemma add_columns_distinct (r : dict) (cols : list string) :
  distinct cols = true -> distinct (add_columns cols r) = true.
Proof.
  unfold add_columns. revert cols.
  induction (dict_keys r) as [ | k ks IH]; cbn [fold_left]; intros cols H;
    [ exact H | ].
  apply IH. destruct (mem_string k cols) eqn:E; [ exact H | ].
  now apply distinct_snoc.
Qed.

Lemma union_columns_distinct (data : list dict) :
  distinct (union_columns data) = true.
Proof.
  unfold union_columns.
  assert (H : forall acc, distinct acc = true ->
                          distinct (fold_left add_columns data acc) = true).
  { induction data as [ | r data IH]; cbn [fold_left]; intros acc Hacc;
      [ exact Hacc | ].
    apply IH. now apply add_columns_distinct. }
  now apply H.
Qed.

Lemma union_columns_In (k : string) (r : dict) (data : list dict) :
  In r data -> In k (dict_keys r) ->
  forall acc : list string,
    mem_string k (fold_left add_columns data acc) = true.
Proof.
  induction data as [ | r0 data IH]; cbn [fold_left]; intros Hr Hk acc;
    [ destruct Hr | ].
  destruct Hr as [-> | Hr]; [ | now apply IH ].
  apply union_columns_keeps. now apply add_key_adds.
Qed.

Lemma dict_get_combine_row (r : dict) (k : string) (cols : list string) :
  mem_string k cols = true ->
  dict_get (combine cols (record_row cols r)) k = Some (cell r k).
Proof.
  unfold mem_string, record_row.
  induction cols as [ | c cols IH]; cbn [existsb map combine dict_get];
    [ discriminate | ].
  rewrite (String.eqb_sym k c).
  destruct (String.eqb_spec c k) as [-> | Hne]; [ reflexivity | ].
  cbn [orb]. exact IH.
Qed.

(** X8. The table loses nothing of the ledger: its column labels are
    pairwise distinct, every row is as long as the list of columns, and
    every field of every stored item can be read back from the item's row
    under the field's name. *)
Theorem table_reads_back (data : list dict) (r : dict) (k : string)
  (v : pyval) :
  In r data ->
  dict_get r k = Some v ->
  distinct (columns (DataFrame_of_records data)) = true
  /\ Forall (fun row => List.length row
                        = List.length (columns (DataFrame_of_records data)))
       (rows (DataFrame_of_records data))
  /\ In (record_row (columns (DataFrame_of_records data)) r)
       (rows (DataFrame_of_records data))
  /\ dict_get
       (combine (columns (DataFrame_of_records data))
          (record_row (columns (DataFrame_of_records data)) r)) k
     = Some v.
Proof.
  intros Hr Hk. cbn [columns rows DataFrame_of_records].
  split; [ apply union_columns_distinct | ].
  split.
  { apply Forall_forall. intros row Hrow. apply in_map_iff in Hrow.
    destruct Hrow as [r' [<- _] ]. unfold record_row. apply length_map. }
  split; [ now apply in_map | ].
  rewrite dict_get_combine_row.
  - unfold cell. now rewrite Hk.
  - apply (union_columns_In k r data Hr).
    now apply (dict_get_key r k v).
Qed.

(** ** The summary page and its downloads (lines 175-194) *)

(** X4. Whenever the summary section is drawn to its end with a table on
    the page (no exporter has raised), the page and the four downloads
    agree: the table on the page is the table of the ledger and each
    download was built from it, the materials total and the grand total
    written on the page are the amounts printed in the PDF and in the
    word-processor download, and labor and taxes are printed there as
    entered. *)
Theorem resumo_page_matches_downloads
  (projeto cliente responsavel : string) (mao_obra impostos : float)
  (w w1 : world) (page : list widget) (df : DataFrame) :
  resumo_section projeto cliente responsavel mao_obra impostos w
  = Ok (page, w1) ->
  nth_error page 1 = Some (Dataframe df) ->
  exists (total : float) (xlsx pdf csv docx : bytes) (s : string),
    page
    = [ Subheader "Resumo dos Itens";
        Dataframe df;
        Subheader "Custos Extras";
        Write ("**Total Materiais:** R$ " ++ format_2f total)%string;
        Write ("**Total Final (com mão de obra e impostos):** R$ "
                 ++ format_2f (total + mao_obra + impostos)%float)%string;
        Subheader "Exportar Orçamento";
        DownloadButton "📊 Baixar Excel" xlsx "orcamento.xlsx";
        DownloadButton "📄 Baixar PDF" pdf "orcamento.pdf";
        DownloadButton "📝 Baixar CSV" csv "orcamento.csv";
        DownloadButton "📑 Baixar DOCX" docx "orcamento.docx" ]
    /\ df_resumo w = Ok (df, w)
    /\ total_materiais df = Ok total
    /\ xlsx_write "Orçamento" df = Ok xlsx
    /\ pdf_build a4_template
         [ Paragraph ("Orçamento de Materiais — " ++ projeto)%string "Title";
           Paragraph ("Cliente: " ++ str_or cliente "-"
                        ++ " | Responsável: " ++ str_or responsavel "-"
                        ++ " | Data: " ++ strftime_dmY_HM (clock w))%string
             "Normal";
           Spacer 1 12;
           Table (columns df :: map (map py_str) (rows df)) 1
             [ BACKGROUND 0 0 (-1) 0 "lightgrey";
               GRID 0 0 (-1) (-1) 0.25%float "grey" ];
           Spacer 1 12;
           Paragraph ("<b>Materiais:</b> R$ " ++ format_2f total)%string "Normal";
           Paragraph ("<b>Mão de obra:</b> R$ " ++ format_2f mao_obra)%string
             "Normal";
           Paragraph ("<b>Impostos:</b> R$ " ++ format_2f impostos)%string
             "Normal";
           Paragraph ("<b>Total:</b> R$ "
                        ++ format_2f (total + mao_obra + impostos)%float)%string
             "Heading3" ]
       = Ok pdf
    /\ to_csv ";" df = Ok s
    /\ csv = encode_utf8 s
    /\ docx_save
         [ Heading ("Orçamento de Materiais — " ++ projeto)%string 0;
           DocParagraph ("Cliente: " ++ str_or cliente "-")%string;
           DocParagraph ("Responsável: " ++ str_or responsavel "-")%string;
           DocParagraph ("Data: " ++ strftime_dmY_HM (clock w))%string;
           DocParagraph "";
           DocTable (columns df :: map (map py_str) (rows df));
           DocParagraph ("Materiais: R$ " ++ format_2f total)%string;
           DocParagraph ("Mão de obra: R$ " ++ format_2f mao_obra)%string;
           DocParagraph ("Impostos: R$ " ++ format_2f impostos)%string;
           Heading ("Total: R$ "
                      ++ format_2f (total + mao_obra + impostos)%float)%string
             1 ]
       = Ok docx.
Proof.
  intros H Hdf.
  apply resumo_section_ok in H. destruct H as [_ [res [Hres Hpage] ] ].
  destruct res as [ [ [df' total] total_final] | ];
    [ | subst page; discriminate Hdf ].
  destruct Hpage as [xlsx [pdf [csv [docx [Hx [Hp [Hc [Hd ->] ] ] ] ] ] ] ].
  cbn [nth_error] in Hdf. injection Hdf as ->.
  apply resumo_totais_ok in Hres.
  destruct Hres as [df0 [Hdf0 [<- [He [Ht ->] ] ] ] ].
  rewrite make_excel_bytes_run in Hx. apply rbind_ok in Hx.
  destruct Hx as [xlsx0 [Hx E] ]. injection E as ->.
  rewrite make_csv_bytes_run in Hc. apply rbind_ok in Hc.
  destruct Hc as [s [Hc E] ]. injection E as <-.
  apply make_pdf_bytes_ok in Hp. destruct Hp as [_ [pbody [Hpb Hbuild] ] ].
  destruct (pdf_body_ok _ _ _ He Hpb) as [total1 [Ht1 ->] ].
  rewrite Ht in Ht1. injection Ht1 as <-.
  apply make_docx_bytes_ok in Hd. destruct Hd as [_ [dbody [Hdb Hsave] ] ].
  destruct (docx_body_ok _ _ _ He Hdb) as [total2 [Ht2 ->] ].
  rewrite Ht in Ht2. injection Ht2 as <-.
  exists total, xlsx, pdf, (encode_utf8 s), docx, s.
  split; [ reflexivity | ].
  split; [ exact Hdf0 | ].
  split; [ exact Ht | ].
  split; [ exact Hx | ].
  split; [ exact Hbuild | ].
  split; [ exact Hc | ].
  split; [ reflexivity | exact Hsave ].
Qed.

(** ** One run of the script *)

Lemma subtotals_app (l1 l2 : list dict) (xs1 xs2 : list float) :
  subtotals l1 = Some xs1 -> subtotals l2 = Some xs2 ->
  subtotals (l1 ++ l2) = Some (xs1 ++ xs2).
Proof.
  revert xs1. induction l1 as [ | r l1 IH]; cbn [subtotals app]; intros xs1 H1 H2.
  - injection H1 as <-. exact H2.
  - destruct (subtotal_of r) as [x | ]; [ | discriminate H1 ].
    destruct (subtotals l1) as [xs | ]; [ | discriminate H1 ].
    injection H1 as <-. now rewrite (IH xs eq_refl H2).
Qed.

Lemma subtotals_item_of_call (c : call) :
  call_valid c = true ->
  subtotals [item_of_call c]
  = Some [ py_round
             (float_or (c_preco_unit c) 0
                * qtd_of (c_medida c) (c_cobertura c) (c_desperdicio c))%float 2 ].
Proof.
  unfold call_valid. rewrite andb_true_iff. intros [Hwf Hdis].
  cbn [subtotals]. now rewrite (item_of_call_fresh c Hwf Hdis).
Qed.

Lemma call_of_form_valid (f : form) : call_valid (call_of_form f) = true.
Proof.
  unfold call_valid, call_of_form, especificacoes_of; cbn [c_especificacoes].
  repeat match goal with
         | |- context [String.eqb (f_material f) ?s] =>
             destruct (String.eqb (f_material f) s)
         end; reflexivity.
Qed.

(** The fixed fields read back from the item stored for a form. *)
Lemma item_of_form_get (f : form) :
  dict_get (item_of_call (call_of_form f)) "Material"
  = Some (PStr (f_material f))
  /\ dict_get (item_of_call (call_of_form f)) "Qtd Necessária"
     = Some (PFloat (qtd_of (f_medida f) (f_cobertura f) (f_desperdicio f)))
  /\ dict_get (item_of_call (call_of_form f)) "Subtotal"
     = Some (PFloat
               (py_round
                  (float_or (f_preco_unit f) 0
                     * qtd_of (f_medida f) (f_cobertura f)
                         (f_desperdicio f))%float 2)).
Proof.
  pose proof (call_of_form_valid f) as Hv. unfold call_valid in Hv.
  apply andb_true_iff in Hv. destruct Hv as [Hwf Hdis].
  rewrite (item_of_call_fresh (call_of_form f) Hwf Hdis).
  repeat split.
Qed.

(** The ledger part of a run never raises: the session is initialised and
    the item of the form is appended when the button is pressed. *)
Lemma script_ledger_run (f : form) (w : world) :
  script_ledger f w
  = Ok (if f_adicionar f
        then Some (f_material f ++ " adicionado ao orçamento!")%string
        else None,
        {| clock := clock w; session_items := Some (ledger_after f w) |}).
Proof.
  destruct w as [t s]. unfold script_ledger, ledger_after, ledger_of.
  cbn [clock session_items].
  unfold bind at 1.
  assert (Hinit : init_session {| clock := t; session_items := s |}
                  = Ok (tt, {| clock := t;
                               session_items :=
                                 Some match s with Some l => l | None => [] end |}))
    by (destruct s; reflexivity).
  rewrite Hinit. clear Hinit.
  set (l0 := match s with Some l => l | None => [] end).
  destruct (f_adicionar f).
  - change (add_item (f_material f) (f_medida f) (f_cobertura f) (f_unidade f)
              (f_desperdicio f) (f_preco_unit f)
              (especificacoes_of (f_material f) (f_extras f)))
      with (add_item_call (call_of_form f)).
    unfold bind. rewrite add_item_call_run. reflexivity.
  - unfold ret. now rewrite app_nil_r.
Qed.

(** A run that returns has drawn the summary section on the ledger the
    ledger part left. *)
Lemma script_run_ok (f : form) (w w1 : world) (msg : option string)
  (page : list widget) :
  script_run f w = Ok ((msg, page), w1) ->
  msg = (if f_adicionar f
         then Some (f_material f ++ " adicionado ao orçamento!")%string
         else None)
  /\ w1 = {| clock := clock w; session_items := Some (ledger_after f w) |}
  /\ resumo_section (f_projeto f) (f_cliente f) (f_responsavel f)
       (f_mao_obra f) (f_impostos f)
       {| clock := clock w; session_items := Some (ledger_after f w) |}
     = Ok (page, w1).
Proof.
  unfold script_run. intros H.
  apply bind_ok in H. destruct H as [msg0 [w0 [Hl H] ] ].
  rewrite script_ledger_run in Hl. injection Hl as <- <-.
  apply bind_ok in H. destruct H as [page0 [w2 [Hp H] ] ].
  unfold ret in H. injection H as <- <- <-.
  pose proof (preserves_ok _ _ _ _ (preserves_resumo_section _ _ _ _ _) Hp)
    as Hw.
  split; [ reflexivity | ]. split; [ exact Hw | exact Hp ].
Qed.

Lemma ledger_after_numeric (f : form) (w : world) :
  ledger_numeric w = true ->
  exists xs : list float, subtotals (ledger_after f w) = Some xs.
Proof.
  unfold ledger_numeric, ledger_after, ledger_of. intros H.
  assert (H0 : exists xs0,
             subtotals match session_items w with Some l => l | None => [] end
             = Some xs0).
  { destruct (session_items w) as [l | ]; [ | now exists [] ].
    destruct (subtotals l) as [xs0 | ]; [ now exists xs0 | discriminate H ]. }
  destruct H0 as [xs0 H0].
  destruct (f_adicionar f).
  - eexists. eapply subtotals_app; [ exact H0 | ].
    apply subtotals_item_of_call, call_of_form_valid.
  - exists xs0. now rewrite app_nil_r.
Qed.

(** X5. The ledger part of a run (session initialisation and the add
    button) never raises, whatever the session and the form: it leaves a
    ledger made of the items stored before followed by exactly the item of
    the form when the button is pressed (with the success message naming
    the material), and by nothing otherwise; the material, the quantity
    and the subtotal read back from that item as the form's material, the
    rounded quantity and the rounded price times quantity. A ledger whose
    subtotals are all floats stays so. The summary section that follows
    does not touch the ledger: whenever the whole run returns, the session
    holds that ledger. *)
Theorem script_run_ledger (f : form) (w : world) :
  script_ledger f w
  = Ok (if f_adicionar f
        then Some (f_material f ++ " adicionado ao orçamento!")%string
        else None,
        {| clock := clock w;
           session_items :=
             Some (ledger_of w
                     ++ (if f_adicionar f
                         then [item_of_call (call_of_form f)] else [])) |})
  /\ dict_get (item_of_call (call_of_form f)) "Material"
     = Some (PStr (f_material f))
  /\ dict_get (item_of_call (call_of_form f)) "Qtd Necessária"
     = Some (PFloat (qtd_of (f_medida f) (f_cobertura f) (f_desperdicio f)))
  /\ dict_get (item_of_call (call_of_form f)) "Subtotal"
     = Some (PFloat
               (py_round
                  (float_or (f_preco_unit f) 0
                     * qtd_of (f_medida f) (f_cobertura f)
                         (f_desperdicio f))%float 2))
  /\ (ledger_numeric w = true ->
      ledger_numeric
        {| clock := clock w;
           session_items :=
             Some (ledger_of w
                     ++ (if f_adicionar f
                         then [item_of_call (call_of_form f)] else [])) |}
      = true)
  /\ (forall (msg : option string) (page : list widget) (w1 : world),
        script_run f w = Ok ((msg, page), w1) ->
        msg = (if f_adicionar f
               then Some (f_material f ++ " adicionado ao orçamento!")%string
               else None)
        /\ w1 = {| clock := clock w;
                   session_items :=
                     Some (ledger_of w
                             ++ (if f_adicionar f
                                 then [item_of_call (call_of_form f)]
                                 else [])) |}).
Proof.
  split; [ apply script_ledger_run | ].
  destruct (item_of_form_get f) as [Hm [Hq Hs] ].
  split; [ exact Hm | ]. split; [ exact Hq | ]. split; [ exact Hs | ].
  split.
  - intros H. destruct (ledger_after_numeric f w H) as [xs Hxs].
    unfold ledger_numeric; cbn [session_items].
    fold (ledger_after f w). now rewrite Hxs.
  - intros msg page w1 H. apply script_run_ok in H.
    destruct H as [Hmsg [Hw _] ]. split; [ exact Hmsg | exact Hw ].
Qed.

(** The table of a ledger that holds an item with a key is not empty. *)
Lemma df_of_records_not_empty (data : list dict) (r : dict) (k : string)
  (v : pyval) :
  In r data -> dict_get r k = Some v ->
  df_empty (DataFrame_of_records data) = false.
Proof.
  intros Hr Hk. unfold df_empty. cbn [columns rows DataFrame_of_records].
  pose proof (union_columns_In k r data Hr (dict_get_key r k v Hk) []) as Hm.
  fold (union_columns data) in Hm.
  destruct (union_columns data); [ discriminate Hm | ].
  destruct data; [ destruct Hr | reflexivity ].
Qed.

(** X6. When the add button is pressed and the run returns (no exporter
    raises), the page of that same run already shows the new item: its
    second element is the table, whose rows are those of the items stored
    before followed by the row of the item just added, from which the
    material reads back under its column; the success message is shown and
    the "no items" notice is not. *)
Theorem script_run_shows_new_item (f : form) (w w1 : world)
  (msg : option string) (page : list widget) :
  f_adicionar f = true ->
  script_run f w = Ok ((msg, page), w1) ->
  exists df : DataFrame,
    nth_error page 1 = Some (Dataframe df)
    /\ rows df
       = map (record_row (columns df)) (ledger_of w)
         ++ [ record_row (columns df) (item_of_call (call_of_form f)) ]
    /\ dict_get
         (combine (columns df)
            (record_row (columns df) (item_of_call (call_of_form f))))
         "Material"
       = Some (PStr (f_material f))
    /\ msg = Some (f_material f ++ " adicionado ao orçamento!")%string
    /\ existsb (fun x => match x with Info _ => true | _ => false end) page
       = false.
Proof.
  intros Hb H. apply script_run_ok in H. destruct H as [Hmsg [_ H] ].
  rewrite Hb in Hmsg.
  assert (El : ledger_after f w
               = ledger_of w ++ [item_of_call (call_of_form f)])
    by (unfold ledger_after; now rewrite Hb).
  destruct (item_of_form_get f) as [Hm _].
  assert (Hin : In (item_of_call (call_of_form f)) (ledger_after f w))
    by (rewrite El; apply in_or_app; right; now left).
  pose proof (df_of_records_not_empty _ _ _ _ Hin Hm) as He.
  apply resumo_section_ok in H. destruct H as [_ [res [Hres Hpage] ] ].
  apply resumo_totais_ok in Hres. destruct Hres as [df [Hdf Hres] ].
  rewrite df_resumo_run in Hdf. injection Hdf as Hdf.
  assert (Edf : df = DataFrame_of_records (ledger_after f w)).
  { destruct (ledger_after f w); [ destruct Hin | now subst df ]. }
  destruct res as [ [ [df' total] total_final] | ].
  - destruct Hres as [-> _].
    destruct Hpage as [xlsx [pdf [csv [docx [_ [_ [_ [_ ->] ] ] ] ] ] ] ].
    exists df. split; [ reflexivity | ].
    rewrite Edf. cbn [rows columns DataFrame_of_records].
    split; [ rewrite El at 2; now rewrite map_app | ].
    split; [ | split; [ exact Hmsg | reflexivity ] ].
    rewrite dict_get_combine_row.
    + unfold cell. now rewrite Hm.
    + apply (union_columns_In "Material" _ _ Hin).
      now apply (dict_get_key _ _ _ Hm).
  - rewrite Edf, He in Hres. discriminate Hres.
Qed.

(** ** No coverage, no cost (lines 29-30, 36-38) *)

Lemma mul_zero_finite (p : float) :
  is_finite p = true ->
  exists s : bool, Prim2SF (p * 0)%float = S754_zero s.
Proof.
  intros F. destruct (is_finite_inv p F) as [Hnan Hinf].
  rewrite mul_spec, Prim2SF_zero. unfold SF64mul.
  destruct (Prim2SF p) as [ s | s | | s m e ].
  - now exists (xorb s false).
  - now destruct (Hinf s).
  - now destruct Hnan.
  - now exists (xorb s false).
Qed.

Lemma py_round_zero (x : float) (nd : Z) (s : bool) :
  Prim2SF x = S754_zero s -> (py_round x nd =? 0)%float = true.
Proof.
  intros H. unfold py_round. rewrite H. destruct s; reflexivity.
Qed.

Lemma float_or_finite (p : float) :
  is_finite p = true -> is_finite (float_or p 0) = true.
Proof. unfold float_or. destruct (p =? 0)%float; auto. Qed.

(** X9. When the coverage is [<= 0] and the extra fields form a dict with
    none of the fixed column names, [add_item] still appends an item; its
    [Qtd Necessária] reads back as [0.0] and, for a finite unit price, its
    [Subtotal] reads back as a float equal to zero: a material without
    coverage is listed and costs nothing. *)
Theorem add_item_no_coverage
  (material : string) (medida cobertura : float) (unidade : string)
  (desperdicio preco_unit : float) (especificacoes : dict)
  (t : datetime) (l : list dict) :
  (cobertura <=? 0)%float = true ->
  is_finite preco_unit = true ->
  dict_wf especificacoes = true ->
  disjoint_from_fixed especificacoes = true ->
  exists (item : dict) (subtotal : float),
    add_item material medida cobertura unidade desperdicio preco_unit
      especificacoes {| clock := t; session_items := Some l |}
    = Ok (tt, {| clock := t; session_items := Some (l ++ [item]) |})
    /\ dict_get item "Qtd Necessária" = Some (PFloat 0)
    /\ dict_get item "Subtotal" = Some (PFloat subtotal)
    /\ (subtotal =? 0)%float = true
    /\ dict_get item "Material" = Some (PStr material).
Proof.
  intros Hc Fp Hwf Hdis.
  pose (c := {| c_material := material; c_medida := medida;
                c_cobertura := cobertura; c_unidade := unidade;
                c_desperdicio := desperdicio; c_preco_unit := preco_unit;
                c_especificacoes := especificacoes |}).
  assert (Hq : qtd_of medida cobertura desperdicio = 0%float)
    by (unfold qtd_of; rewrite Hc; reflexivity).
  exists (item_of_call c), (py_round (float_or preco_unit 0 * 0)%float 2).
  split; [ apply (add_item_call_run c) | ].
  rewrite (item_of_call_fresh c Hwf Hdis).
  cbn [c c_material c_medida c_cobertura c_unidade c_desperdicio
       c_preco_unit c_especificacoes].
  rewrite Hq.
  split; [ reflexivity | ].
  split; [ reflexivity | ].
  split; [ | reflexivity ].
  destruct (mul_zero_finite (float_or preco_unit 0)
              (float_or_finite preco_unit Fp)) as [s Hs].
  now apply (py_round_zero _ 2 s).
Qed.

(** ** A price of zero (lines 36-38, 148) *)

Lemma zero_mul_finite (q : float) :
  is_finite q = true ->
  exists s : bool, Prim2SF (0 * q)%float = S754_zero s.
Proof.
  intros F. destruct (is_finite_inv q F) as [Hnan Hinf].
  rewrite mul_spec, Prim2SF_zero. unfold SF64mul.
  destruct (Prim2SF q) as [ s | s | | s m e ].
  - now exists (xorb false s).
  - now destruct (Hinf s).
  - now destruct Hnan.
  - now exists (xorb false s).
Qed.

(** X11. With a unit price equal to zero (the default of the price input)
    and extra fields that form a dict with none of the fixed column names,
    [Preço Unitário] reads back from the stored item as [0.0] and
    [Subtotal] as a float equal to zero whenever the stored quantity is
    finite; it is NaN only after the quantity has overflowed to
    infinity. *)
Theorem add_item_zero_price
  (material : string) (medida cobertura : float) (unidade : string)
  (desperdicio preco_unit : float) (especificacoes : dict)
  (t : datetime) (l : list dict) :
  (preco_unit =? 0)%float = true ->
  dict_wf especificacoes = true ->
  disjoint_from_fixed especificacoes = true ->
  exists (item : dict) (qtd subtotal : float),
    add_item material medida cobertura unidade desperdicio preco_unit
      especificacoes {| clock := t; session_items := Some l |}
    = Ok (tt, {| clock := t; session_items := Some (l ++ [item]) |})
    /\ dict_get item "Preço Unitário" = Some (PFloat 0)
    /\ dict_get item "Qtd Necessária" = Some (PFloat qtd)
    /\ dict_get item "Subtotal" = Some (PFloat subtotal)
    /\ (is_finite qtd = true -> (subtotal =? 0)%float = true)
    /\ (qtd = infinity -> subtotal = nan).
Proof.
  intros Hp Hwf Hdis.
  pose (c := {| c_material := material; c_medida := medida;
                c_cobertura := cobertura; c_unidade := unidade;
                c_desperdicio := desperdicio; c_preco_unit := preco_unit;
                c_especificacoes := especificacoes |}).
  assert (Hor : float_or preco_unit 0 = 0%float)
    by (unfold float_or; now rewrite Hp).
  exists (item_of_call c), (qtd_of medida cobertura desperdicio),
    (py_round (0 * qtd_of medida cobertura desperdicio)%float 2).
  split; [ apply (add_item_call_run c) | ].
  rewrite (item_of_call_fresh c Hwf Hdis).
  cbn [c c_material c_medida c_cobertura c_unidade c_desperdicio
       c_preco_unit c_especificacoes].
  rewrite Hor.
  split; [ reflexivity | ].
  split; [ reflexivity | ].
  split; [ reflexivity | ].
  split.
  - intros Fq. destruct (zero_mul_finite _ Fq) as [s Hs].
    now apply (py_round_zero _ 2 s).
  - intros ->. vm_compute. reflexivity.
Qed.

End App.

(* ================================================================== *)
(** * Runs with the stand-in libraries *)

(** The left-to-right sum is a floating-point sum of its list: the
    additions [((0 + x1) + x2) + ...]. *)
Lemma seq_sum_tree (xs : list float) :
  forall t : sum_tree,
    fold_left (fun acc x => (acc + x)%float) xs (tree_value t)
    = tree_value (fold_left (fun t' x => Node t' (Leaf x)) xs t)
    /\ tree_leaves (fold_left (fun t' x => Node t' (Leaf x)) xs t)
       = (tree_leaves t ++ xs)%list.
Proof.
  induction xs as [ | x xs IH]; intros t; cbn [fold_left].
  - split; [ reflexivity | now rewrite app_nil_r ].
  - destruct (IH (Node t (Leaf x))) as [Hv Hl]. cbn [tree_value] in Hv.
    split; [ exact Hv | ].
    rewrite Hl. cbn [tree_leaves]. now rewrite <- app_assoc.
Qed.

Lemma seq_sum_spec (ys : list float) : float_sum_of ys (seq_sum ys).
Proof.
  destruct (seq_sum_tree ys (Leaf 0)) as [Hv Hl].
  exists (fold_left (fun t' x => Node t' (Leaf x)) ys (Leaf 0)).
  split; [ symmetry; exact Hv | ].
  rewrite Hl. cbn [tree_leaves app filter].
  change (nonzero 0) with false. apply Permutation_refl.
Qed.

(** The summary section of a fresh session. *)
Example resumo_fresh_session :
  (init_session ;;;
   resumo_section text_repr seq_sum text_sum text_xlsx text_markup_ok text_pdf
     text_csv text_xml_ok text_docx
     "Casa Verde" "Ana Lima" "Rui Costa" 10 5)%py fresh_world
  = Ok ([ Subheader "Resumo dos Itens"; Info "Nenhum item adicionado ainda." ],
        {| clock := sample_time; session_items := Some [] |}).
Proof. reflexivity. Qed.

(** The ledger holding the cement and the windows: materials
    [66 + 787.5 = 853.5], grand total [868.5] with labor 10 and taxes 5. *)
Lemma resumo_totals_witness :
  (forall ys : list float, float_sum_of ys (seq_sum ys))
  /\ subtotals [cimento_item; janelas_item] = Some [66%float; 787.5%float]
  /\ exists df : DataFrame,
       resumo_totais seq_sum text_sum 10 5 obra_world
       = Ok (Some (df, 853.5%float, 868.5%float), obra_world)
       /\ df_column df "Subtotal" = Ok [PFloat 66; PFloat 787.5]
       /\ float_sum_of [66%float; 787.5%float] 853.5.
Proof.
  assert (Hs : subtotals [cimento_item; janelas_item]
               = Some [66%float; 787.5%float])
    by (vm_compute; reflexivity).
  assert (Hne : [cimento_item; janelas_item] <> []) by discriminate.
  split; [ exact seq_sum_spec | ].
  split; [ exact Hs | ].
  destruct (resumo_totals text_repr seq_sum text_sum text_xlsx text_markup_ok
              text_pdf text_csv text_xml_ok text_docx
              [cimento_item; janelas_item] [66%float; 787.5%float]
              "Casa Verde" "Ana Lima" "Rui Costa" 10 5 sample_time
              seq_sum_spec Hne Hs)
    as (df & total & Hrun & _ & Hcol & Htot & Hsum & _ & _).
  assert (E : total = 853.5%float) by (rewrite Htot; vm_compute; reflexivity).
  rewrite E in Hrun, Hsum.
  assert (E' : (853.5 + 10 + 5)%float = 868.5%float)
    by (vm_compute; reflexivity).
  rewrite E' in Hrun.
  exists df. split; [ exact Hrun | ]. split; [ exact Hcol | exact Hsum ].
Defined.

(** C4 as stated fails for the empty ledger: with labor 10 and taxes 5 the
    summary computes no totals, neither [0.0] nor [15.0], and shows the
    notice only. *)
Lemma resumo_empty_ledger_counterexample :
  (init_session ;;; resumo_totais seq_sum text_sum 10 5)%py fresh_world
  = Ok (None, {| clock := sample_time; session_items := Some [] |})
  /\ (init_session ;;;
      resumo_section text_repr seq_sum text_sum text_xlsx text_markup_ok
        text_pdf text_csv text_xml_ok text_docx
        "Casa Verde" "Ana Lima" "Rui Costa" 10 5)%py fresh_world
     = Ok ([ Subheader "Resumo dos Itens";
             Info "Nenhum item adicionado ainda." ],
           {| clock := sample_time; session_items := Some [] |}).
Proof. split; reflexivity. Qed.

(** C5 as stated fails: for the same budget the PDF and the word-processor
    documents carry the project name and the grand total, the spreadsheet
    and the CSV file carry neither. *)
Lemma spreadsheet_csv_table_only_counterexample :
  output_contains "Casa Verde"
    (make_pdf_bytes text_repr seq_sum text_sum text_markup_ok text_pdf
       cimento_df "Casa Verde" "Ana Lima" "Rui Costa" sample_custos
       cimento_world) = true
  /\ output_contains "Casa Verde"
       (make_docx_bytes text_repr seq_sum text_sum text_xml_ok text_docx
          cimento_df "Casa Verde" "Ana Lima" "Rui Costa" sample_custos
          cimento_world) = true
  /\ output_contains "Casa Verde"
       (make_excel_bytes text_xlsx cimento_df cimento_world) = false
  /\ output_contains "Casa Verde"
       (make_csv_bytes text_csv cimento_df cimento_world) = false
  /\ output_contains "R$ 81.00"
       (make_pdf_bytes text_repr seq_sum text_sum text_markup_ok text_pdf
          cimento_df "Casa Verde" "Ana Lima" "Rui Costa" sample_custos
          cimento_world) = true
  /\ output_contains "R$ 81.00"
       (make_docx_bytes text_repr seq_sum text_sum text_xml_ok text_docx
          cimento_df "Casa Verde" "Ana Lima" "Rui Costa" sample_custos
          cimento_world) = true
  /\ output_contains "R$"
       (make_excel_bytes text_xlsx cimento_df cimento_world) = false
  /\ output_contains "R$"
       (make_csv_bytes text_csv cimento_df cimento_world) = false
  /\ output_contains "Cimento"
       (make_excel_bytes text_xlsx cimento_df cimento_world) = true
  /\ output_contains "Cimento"
       (make_csv_bytes text_csv cimento_df cimento_world) = true.
Proof. repeat split; vm_compute; reflexivity. Qed.

(** The PDF and the word-processor exporters on the table of the cement
    item: both return, and the documents they built print the materials
    total 66.00. *)
Lemma exporters_content_witness :
  df_empty cimento_df = false
  /\ (exists (b : bytes) (total : float),
        make_pdf_bytes text_repr seq_sum text_sum text_markup_ok text_pdf
          cimento_df "Casa Verde" "Ana Lima" "Rui Costa" sample_custos
          cimento_world
        = Ok (b, cimento_world)
        /\ total_materiais seq_sum text_sum cimento_df = Ok total
        /\ format_2f total = "66.00"%string)
  /\ (exists (b : bytes) (total : float),
        make_docx_bytes text_repr seq_sum text_sum text_xml_ok text_docx
          cimento_df "Casa Verde" "Ana Lima" "Rui Costa" sample_custos
          cimento_world
        = Ok (b, cimento_world)
        /\ total_materiais seq_sum text_sum cimento_df = Ok total
        /\ format_2f total = "66.00"%string).
Proof.
  assert (He : df_empty cimento_df = false) by reflexivity.
  split; [ exact He | ].
  destruct (exporters_content text_repr seq_sum text_sum text_xlsx
              text_markup_ok text_pdf text_csv text_xml_ok text_docx
              cimento_df "Casa Verde" "Ana Lima" "Rui Costa"
              sample_custos cimento_world He)
    as (Hpdf & Hdocx & _).
  split.
  - eassert (Hrun : make_pdf_bytes text_repr seq_sum text_sum text_markup_ok
                      text_pdf cimento_df "Casa Verde" "Ana Lima" "Rui Costa"
                      sample_custos cimento_world
                    = Ok (_, cimento_world))
      by (vm_compute; reflexivity).
    destruct (Hpdf _ _ Hrun) as (total & Ht & _).
    eexists _, total. split; [ exact Hrun | ]. split; [ exact Ht | ].
    vm_compute in Ht. injection Ht as <-. vm_compute. reflexivity.
  - eassert (Hrun : make_docx_bytes text_repr seq_sum text_sum text_xml_ok
                      text_docx cimento_df "Casa Verde" "Ana Lima" "Rui Costa"
                      sample_custos cimento_world
                    = Ok (_, cimento_world))
      by (vm_compute; reflexivity).
    destruct (Hdocx _ _ Hrun) as (total & Ht & _).
    eexists _, total. split; [ exact Hrun | ]. split; [ exact Ht | ].
    vm_compute in Ht. injection Ht as <-. vm_compute. reflexivity.
Defined.

(** The exporters on [pd.DataFrame()] with texts the libraries accept:
    header only. *)
Lemma exporters_empty_table_witness :
  df_empty DataFrame_new = true
  /\ make_pdf_bytes text_repr seq_sum text_sum text_markup_ok text_pdf
       DataFrame_new "Casa Verde" "" "" sample_custos fresh_world
     = (let? b :=
          text_pdf a4_template
            [ Paragraph "Orçamento de Materiais — Casa Verde" "Title";
              Paragraph "Cliente: - | Responsável: - | Data: 07/03/2024 09:05"
                "Normal";
              Spacer 1 12 ] in
        Ok (b, fresh_world))%result
  /\ make_docx_bytes text_repr seq_sum text_sum text_xml_ok text_docx
       DataFrame_new "Casa Verde" "" "" sample_custos fresh_world
     = (let? b :=
          text_docx
            [ Heading "Orçamento de Materiais — Casa Verde" 0;
              DocParagraph "Cliente: -";
              DocParagraph "Responsável: -";
              DocParagraph "Data: 07/03/2024 09:05";
              DocParagraph "" ] in
        Ok (b, fresh_world))%result.
Proof.
  assert (He : df_empty DataFrame_new = true) by reflexivity.
  split; [ exact He | ].
  destruct (exporters_empty_table text_repr seq_sum text_sum text_xlsx
              text_markup_ok text_pdf text_csv text_xml_ok text_docx
              DataFrame_new "Casa Verde" "" "" sample_custos fresh_world He)
    as (Hp & Hd & _).
  split; [ rewrite Hp | rewrite Hd ]; reflexivity.
Defined.

(** C6 as stated fails: on the empty table the PDF exporter raises for the
    project name [A<B], whose [<] opens a tag that is never closed, and the
    word-processor exporter raises for a project name holding the control
    character of code 7. *)
Lemma empty_table_header_rejected_counterexample :
  df_empty DataFrame_new = true
  /\ make_pdf_bytes text_repr seq_sum text_sum text_markup_ok text_pdf
       DataFrame_new "A<B" "" "" sample_custos fresh_world
     = Raise ValueError
  /\ make_docx_bytes text_repr seq_sum text_sum text_xml_ok text_docx
       DataFrame_new (String "007" "B") "" "" sample_custos fresh_world
     = Raise ValueError.
Proof. repeat split. Qed.

(** The same table exported at [sample_time] and one minute later, on
    different sessions: one CSV file, two different PDF and word-processor
    documents. *)
Lemma csv_export_deterministic_witness :
  exists b : bytes,
    make_csv_bytes text_csv cimento_df cimento_world = Ok (b, cimento_world)
    /\ make_csv_bytes text_csv cimento_df
         {| clock := later_time; session_items := None |}
       = Ok (b, {| clock := later_time; session_items := None |})
    /\ output_contains "07/03/2024 09:05"
         (make_pdf_bytes text_repr seq_sum text_sum text_markup_ok text_pdf
            cimento_df "Casa Verde" "Ana Lima" "Rui Costa" sample_custos
            cimento_world) = true
    /\ output_contains "07/03/2024 09:05"
         (make_pdf_bytes text_repr seq_sum text_sum text_markup_ok text_pdf
            cimento_df "Casa Verde" "Ana Lima" "Rui Costa" sample_custos
            {| clock := later_time; session_items := None |}) = false
    /\ output_contains "07/03/2024 09:06"
         (make_docx_bytes text_repr seq_sum text_sum text_xml_ok text_docx
            cimento_df "Casa Verde" "Ana Lima" "Rui Costa" sample_custos
            {| clock := later_time; session_items := None |}) = true
    /\ output_contains "07/03/2024 09:06"
         (make_docx_bytes text_repr seq_sum text_sum text_xml_ok text_docx
            cimento_df "Casa Verde" "Ana Lima" "Rui Costa" sample_custos
            cimento_world) = false.
Proof.
  destruct (csv_export_deterministic text_repr seq_sum text_sum text_xlsx
              text_markup_ok text_pdf text_csv text_xml_ok text_docx cimento_df
              "Casa Verde" "Ana Lima" "Rui Costa" sample_custos
              cimento_world {| clock := later_time; session_items := None |})
    as (_ & _ & Hsame & _).
  eassert (H1 : make_csv_bytes text_csv cimento_df cimento_world
                = Ok (_, cimento_world))
    by (vm_compute; reflexivity).
  eassert (H2 : make_csv_bytes text_csv cimento_df
                  {| clock := later_time; session_items := None |}
                = Ok (_, {| clock := later_time; session_items := None |}))
    by (vm_compute; reflexivity).
  destruct (Hsame _ _ _ _ H1 H2) as (E & _ & _).
  eexists. split; [ exact H1 | ].
  split; [ exact (eq_ind _ (fun b => _ = Ok (b, _)) H2 _ (eq_sym E)) | ].
  repeat split; vm_compute; reflexivity.
Defined.

(* ================================================================== *)
(** * Runs of the further properties *)

(** The summary page of the ledger holding the cement and the windows. *)
Lemma resumo_page_matches_downloads_witness :
  exists (page : list widget) (total : float),
    resumo_section text_repr seq_sum text_sum text_xlsx text_markup_ok
      text_pdf text_csv text_xml_ok text_docx
      "Casa Verde" "Ana Lima" "Rui Costa" 10 5 obra_world
    = Ok (page, obra_world)
    /\ nth_error page 1
       = Some (Dataframe (DataFrame_of_records [cimento_item; janelas_item]))
    /\ total_materiais seq_sum text_sum
         (DataFrame_of_records [cimento_item; janelas_item])
       = Ok total
    /\ nth_error page 3
       = Some (Write ("**Total Materiais:** R$ " ++ format_2f total)%string)
    /\ format_2f total = "853.50"%string
    /\ format_2f (total + 10 + 5)%float = "868.50"%string.
Proof.
  eassert (Hrun : resumo_section text_repr seq_sum text_sum text_xlsx
                    text_markup_ok text_pdf text_csv text_xml_ok text_docx
                    "Casa Verde" "Ana Lima" "Rui Costa" 10 5 obra_world
                  = Ok (_, obra_world))
    by (vm_compute; reflexivity).
  eassert (Hdf : nth_error _ 1
                 = Some (Dataframe
                           (DataFrame_of_records [cimento_item; janelas_item])));
    [ | destruct (resumo_page_matches_downloads text_repr seq_sum text_sum
                    text_xlsx text_markup_ok text_pdf text_csv text_xml_ok
                    text_docx "Casa Verde" "Ana Lima" "Rui Costa" 10 5
                    obra_world obra_world _ _ Hrun Hdf)
        as (total & xlsx & pdf & csv & docx & s & Hpage & _ & Ht & _) ].
  { vm_compute. reflexivity. }
  eexists _, total. split; [ exact Hrun | ].
  split; [ exact Hdf | ].
  split; [ exact Ht | ].
  split; [ rewrite Hpage; reflexivity | ].
  vm_compute in Ht. injection Ht as <-.
  split; vm_compute; reflexivity.
Defined.

(** The first run of a session, with the button pressed for a window. *)
Lemma script_run_ledger_witness :
  script_ledger janelas_form fresh_world
  = Ok (Some "Janelas adicionado ao orçamento!"%string,
        {| clock := sample_time; session_items := Some [janelas_item] |})
  /\ dict_get janelas_item "Subtotal" = Some (PFloat 787.5)
  /\ exists page : list widget,
       script_run text_repr seq_sum text_sum text_xlsx text_markup_ok
         text_pdf text_csv text_xml_ok text_docx janelas_form fresh_world
       = Ok ((Some "Janelas adicionado ao orçamento!"%string, page),
             {| clock := sample_time; session_items := Some [janelas_item] |}).
Proof.
  destruct (script_run_ledger text_repr seq_sum text_sum text_xlsx
              text_markup_ok text_pdf text_csv text_xml_ok text_docx
              janelas_form fresh_world)
    as (Hl & _ & _ & Hs & _ & Hrun).
  split; [ exact Hl | ].
  split; [ unfold janelas_item; rewrite Hs; vm_compute; reflexivity | ].
  eassert (H : script_run text_repr seq_sum text_sum text_xlsx text_markup_ok
                 text_pdf text_csv text_xml_ok text_docx janelas_form
                 fresh_world
               = Ok ((_, _), _))
    by (vm_compute; reflexivity).
  destruct (Hrun _ _ _ H) as [Hmsg Hw].
  eexists. rewrite H. rewrite Hmsg, Hw. reflexivity.
Defined.

(** The windows added to the ledger holding the cement. *)
Lemma script_run_shows_new_item_witness :
  f_adicionar janelas_form = true
  /\ exists (page : list widget) (w1 : world) (df : DataFrame),
       script_run text_repr seq_sum text_sum text_xlsx text_markup_ok
         text_pdf text_csv text_xml_ok text_docx janelas_form cimento_world
       = Ok ((Some "Janelas adicionado ao orçamento!"%string, page), w1)
       /\ nth_error page 1 = Some (Dataframe df)
       /\ rows df
          = map (record_row (columns df)) [cimento_item]
            ++ [ record_row (columns df) janelas_item ]
       /\ dict_get (combine (columns df) (record_row (columns df) janelas_item))
            "Material"
          = Some (PStr "Janelas").
Proof.
  assert (Hb : f_adicionar janelas_form = true) by reflexivity.
  split; [ exact Hb | ].
  eassert (H : script_run text_repr seq_sum text_sum text_xlsx text_markup_ok
                 text_pdf text_csv text_xml_ok text_docx janelas_form
                 cimento_world
               = Ok ((_, _), _))
    by (vm_compute; reflexivity).
  destruct (script_run_shows_new_item text_repr seq_sum text_sum text_xlsx
              text_markup_ok text_pdf text_csv text_xml_ok text_docx
              janelas_form cimento_world _ _ _ Hb H)
    as (df & Hdf & Hrows & Hmat & Hmsg & _).
  eexists _, _, df. split; [ rewrite H, Hmsg; reflexivity | ].
  split; [ exact Hdf | ]. split; [ exact Hrows | exact Hmat ].
Defined.

(** Cement, then a window: the two window columns follow the fixed ones. *)
Lemma columns_fixed_then_extras_witness :
  forallb call_valid [cimento_call; call_of_form janelas_form] = true
  /\ columns
       (DataFrame_of_records
          (map item_of_call [cimento_call; call_of_form janelas_form]))
     = fixed_columns ++ [ "Altura (m)"%string; "Largura (m)"%string ].
Proof.
  split; [ reflexivity | ].
  apply (columns_fixed_then_extras cimento_call [call_of_form janelas_form]).
  reflexivity.
Defined.

Lemma table_reads_back_witness :
  In cimento_item [cimento_item]
  /\ dict_get cimento_item "Subtotal" = Some (PFloat 66)
  /\ dict_get
       (combine (columns cimento_df)
          (record_row (columns cimento_df) cimento_item)) "Subtotal"
     = Some (PFloat 66).
Proof.
  assert (Hin : In cimento_item [cimento_item]) by (now left).
  assert (Hk : dict_get cimento_item "Subtotal" = Some (PFloat 66))
    by reflexivity.
  split; [ exact Hin | ].
  split; [ exact Hk | ].
  destruct (table_reads_back [cimento_item] cimento_item "Subtotal"
              (PFloat 66) Hin Hk) as [_ [_ [_ H] ] ].
  exact H.
Defined.

(** Paint with a coverage of zero. *)
Lemma add_item_no_coverage_witness :
  (0 <=? 0)%float = true
  /\ is_finite 80 = true
  /\ dict_wf [] = true
  /\ disjoint_from_fixed [] = true
  /\ exists (item : dict) (subtotal : float),
       add_item "Tinta" 40 0 "lata" 5 80 []
         {| clock := sample_time; session_items := Some [] |}
       = Ok (tt,
             {| clock := sample_time; session_items := Some ([] ++ [item]) |})
       /\ dict_get item "Qtd Necessária" = Some (PFloat 0)
       /\ dict_get item "Subtotal" = Some (PFloat subtotal)
       /\ (subtotal =? 0)%float = true
       /\ dict_get item "Material" = Some (PStr "Tinta").
Proof.
  repeat (split; [ reflexivity | ]).
  apply (add_item_no_coverage "Tinta" 40 0 "lata" 5 80 [] sample_time []);
    reflexivity.
Defined.

(** Cement at the default price of zero. *)
Lemma add_item_zero_price_witness :
  (0 =? 0)%float = true
  /\ dict_wf [] = true
  /\ disjoint_from_fixed [] = true
  /\ exists (item : dict) (subtotal : float),
       add_item "Cimento" 50 25 "saco" 10 0 []
         {| clock := sample_time; session_items := Some [] |}
       = Ok (tt,
             {| clock := sample_time; session_items := Some ([] ++ [item]) |})
       /\ dict_get item "Preço Unitário" = Some (PFloat 0)
       /\ dict_get item "Qtd Necessária" = Some (PFloat 2.2)
       /\ dict_get item "Subtotal" = Some (PFloat subtotal)
       /\ (subtotal =? 0)%float = true.
Proof.
  repeat (split; [ reflexivity | ]).
  destruct (add_item_zero_price "Cimento" 50 25 "saco" 10 0 [] sample_time []
              eq_refl eq_refl eq_refl)
    as (item & qtd & subtotal & Hrun & Hp & Hq & Hs & Hfin & _).
  assert (E : qtd = 2.2%float).
  { vm_compute in Hrun. injection Hrun as <-.
    vm_compute in Hq. now injection Hq as <-. }
  exists item, subtotal. split; [ exact Hrun | ]. split; [ exact Hp | ].
  rewrite E in Hq. split; [ exact Hq | ]. split; [ exact Hs | ].
  apply Hfin. rewrite E. reflexivity.
Defined.
